(** * kpi front end: submission modal, analysis tab, work protector, price display

    A shallow embedding of the TypeScript sources

      - jsapp/js/components/submissions/submissionModal.tsx
      - jsapp/js/components/processing/analysis/analysisTab.component.tsx
      - the work protector helper ([ProtectorHelpers.safeExecute])
      - the price display hook ([useDisplayPrice])

    together with the JavaScript built-ins these sources call
    ([Number.parseInt], [Array.prototype.findIndex], array indexing,
    [String.prototype.replace], [Number.prototype.toFixed]).

    Conventions.  A JavaScript number that holds an identifier, an index or a
    page count is an integer and is modelled by [Z]; the model is exact for
    integers of magnitude below 2^53.  A price is a binary64 number and is
    modelled by Rocq's primitive [float], on which the arithmetic is the IEEE
    arithmetic of JavaScript.  [undefined] and [null] are [None].  A string is
    a [string] of ASCII characters. *)

From Stdlib Require Import ZArith Bool Ascii String DecimalString Floats Lia.
From stdpp Require Import base option list strings gmap.

#[local] Set Warnings "-register-all".
Local Open Scope string_scope.
Local Open Scope Z_scope.

(* ===================================================================== *)
(** * JavaScript built-ins used by the sources *)
(* ===================================================================== *)

Module Js.

(** ** Values *)

(** JSON-like values: what a submission record holds. *)
Inductive JsValue : Type :=
| JsNull
| JsBool (b : bool)
| JsNum (n : Z)
| JsStr (s : string)
| JsArr (items : list JsValue)
| JsObj (fields : list (string * JsValue)).

(** [ToBoolean] on a value that may be [undefined]. *)
Definition truthy (v : option JsValue) : bool :=
  match v with
  | None | Some JsNull => false
  | Some (JsBool b) => b
  | Some (JsNum n) => negb (n =? 0)
  | Some (JsStr s) => negb (String.eqb s "")
  | Some (JsArr _) | Some (JsObj _) => true
  end.

(** [ToBoolean] on a string, on an optional string and on an optional number
    ([None] on a number stands for [undefined] and for [NaN]). *)
Definition truthyString (s : string) : bool := negb (String.eqb s "").

Definition truthyOptString (s : option string) : bool :=
  match s with Some s => truthyString s | None => false end.

Definition truthyNumber (v : option Z) : bool :=
  match v with Some n => negb (n =? 0) | None => false end.

(** Property read [o.k]: the first binding of [k] in an object,
    [undefined] on anything else. *)
Fixpoint assoc (k : string) (fields : list (string * JsValue)) : option JsValue :=
  match fields with
  | [] => None
  | (k', v) :: rest => if String.eqb k k' then Some v else assoc k rest
  end.

Definition getProp (v : JsValue) (k : string) : option JsValue :=
  match v with
  | JsObj fields => assoc k fields
  | _ => None
  end.

(** ** Arrays *)

(** [arr[i]] for a number [i]: [undefined] outside [0 .. length-1], and in
    particular at every negative index. *)
Definition index {A : Type} (arr : list A) (i : Z) : option A :=
  if i <? 0 then None else arr !! Z.to_nat i.

(** [arr.findIndex(p)]: the index of the first element satisfying [p],
    [-1] when there is none. *)
Fixpoint findIndexFrom {A : Type} (p : A → bool) (arr : list A) (i : Z) : Z :=
  match arr with
  | [] => -1
  | x :: rest => if p x then i else findIndexFrom p rest (i + 1)
  end.

Definition findIndex {A : Type} (p : A → bool) (arr : list A) : Z :=
  findIndexFrom p arr 0.

(** [k === v] between a number and the result of [parseInt]
    ([None] is [NaN], which is equal to nothing). *)
Definition strictEqNumber (k : Z) (v : option Z) : bool :=
  match v with Some n => k =? n | None => false end.

(** ** Number.parseInt, radix absent *)

Definition isWhiteSpace (c : ascii) : bool :=
  let n := nat_of_ascii c in
  (Nat.eqb n 9 || Nat.eqb n 10 || Nat.eqb n 11 || Nat.eqb n 12
   || Nat.eqb n 13 || Nat.eqb n 32)%bool.

Fixpoint trimStart (s : string) : string :=
  match s with
  | String c rest => if isWhiteSpace c then trimStart rest else s
  | EmptyString => EmptyString
  end.

(** The value of a character as a digit in radix up to 36. *)
Definition digitValue (c : ascii) : option Z :=
  let n := Z.of_nat (nat_of_ascii c) in
  if (48 <=? n) && (n <=? 57) then Some (n - 48)
  else if (97 <=? n) && (n <=? 122) then Some (n - 87)
  else if (65 <=? n) && (n <=? 90) then Some (n - 55)
  else None.

(** The longest prefix of radix-[R] digits, read as a number; [acc] is [None]
    as long as no digit was read. *)
Fixpoint parseDigits (R : Z) (s : string) (acc : option Z) : option Z :=
  match s with
  | String c rest =>
      match digitValue c with
      | Some d =>
          if d <? R then parseDigits R rest (Some (R * default 0 acc + d))
          else acc
      | None => acc
      end
  | EmptyString => acc
  end.

Definition parseInt (input : string) : option Z :=
  let s := trimStart input in
  let '(negative, s) :=
    match s with
    | String "-" rest => (true, rest)
    | String "+" rest => (false, rest)
    | _ => (false, s)
    end in
  let '(R, s) :=
    match s with
    | String "0" (String "x" rest) => (16, rest)
    | String "0" (String "X" rest) => (16, rest)
    | _ => (10, s)
    end in
  match parseDigits R s None with
  | Some n => Some (if negative then - n else n)
  | None => None
  end.

(** ** String.prototype.replace with a string pattern *)

(** [stripPrefix p s] is the rest of [s] after [p] when [s] starts with [p]. *)
Fixpoint stripPrefix (p s : string) : option string :=
  match p, s with
  | EmptyString, _ => Some s
  | String a p', String b s' => if Ascii.eqb a b then stripPrefix p' s' else None
  | String _ _, EmptyString => None
  end.

(** The text before and after the first occurrence of [p] in [s]. *)
Fixpoint splitFirst (p s : string) : option (string * string) :=
  match stripPrefix p s with
  | Some after => Some ("", after)
  | None =>
      match s with
      | String c rest =>
          match splitFirst p rest with
          | Some (before, after) => Some (String c before, after)
          | None => None
          end
      | EmptyString => None
      end
  end.

(** [GetSubstitution] for a match without capture groups: in the
    replacement, [$$] is a dollar sign, [$&] the matched text, [$`] the text
    before the match and [$'] the text after it; every other character
    stands for itself. *)
Fixpoint getSubstitution (matched before after template : string) : string :=
  match template with
  | String "$" (String "$" rest) =>
      String "$" (getSubstitution matched before after rest)
  | String "$" (String "&" rest) =>
      matched +:+ getSubstitution matched before after rest
  | String "$" (String "`" rest) =>
      before +:+ getSubstitution matched before after rest
  | String "$" (String "'" rest) =>
      after +:+ getSubstitution matched before after rest
  | String c rest => String c (getSubstitution matched before after rest)
  | EmptyString => EmptyString
  end.

(** [s.replace(p, r)]: the first occurrence of [p] is replaced. *)
Definition replace (s p r : string) : string :=
  match splitFirst p s with
  | Some (before, after) => before +:+ getSubstitution p before after r +:+ after
  | None => s
  end.

(** A replacement text without dollar sign is taken literally. *)
Fixpoint dollarFree (s : string) : bool :=
  match s with
  | String c rest => negb (Ascii.eqb c "$") && dollarFree rest
  | EmptyString => true
  end.

(** ** Number.prototype.toFixed(2) *)

(** A finite binary64 number is [(-1)^s * m * 2^e] ([Prim2SF]).  [toFixed]
    works on this exact value. *)

(** The decimal digits of a natural number. *)
Definition decimalDigits (n : Z) : string :=
  NilZero.string_of_uint (N.to_uint (Z.to_N n)).

(** The integer [n] for which [n / 100 - m * 2^e] is as close to zero as
    possible, the larger one when there are two. *)
Definition nearestHundredth (m : positive) (e : Z) : Z :=
  if 0 <=? e then 100 * Z.pos m * 2 ^ e
  else (200 * Z.pos m + 2 ^ (- e)) / 2 ^ (1 - e).

(** [m * 2^e >= 10^21]. *)
Definition atLeast1e21 (m : positive) (e : Z) : bool :=
  if 0 <=? e then 10 ^ 21 <=? Z.pos m * 2 ^ e
  else 10 ^ 21 * 2 ^ (- e) <=? Z.pos m.

(** Zeros on the left up to three characters. *)
Fixpoint padStart3 (fuel : nat) (s : string) : string :=
  match fuel with
  | O => s
  | S fuel' =>
      if (String.length s <? 3)%nat then padStart3 fuel' (String "0" s) else s
  end.

(** The decimal point before the last two digits. *)
Definition insertPoint (digits : string) : string :=
  let m := padStart3 2 digits in
  let k := String.length m in
  String.substring 0 (k - 2) m +:+ "." +:+ String.substring (k - 2) 2 m.

Section ToFixed.

(** [Number::toString], which [toFixed] falls back to from 10^21 on, is
    left open. *)
Variable Number_toString : float → string.

Definition toFixed2 (x : float) : string :=
  match Prim2SF x with
  | S754_nan => "NaN"
  | S754_infinity negative => if negative then "-Infinity" else "Infinity"
  | S754_zero _ => "0.00"
  | S754_finite negative m e =>
      (if negative then "-" else "") +:+
      (if atLeast1e21 m e then Number_toString (PrimFloat.abs x)
       else insertPoint (decimalDigits (nearestHundredth m e)))
  end.

End ToFixed.

(** [ToBoolean] on a binary64 number: false on [0], [-0] and [NaN]. *)
Definition truthyFloat (x : float) : bool :=
  negb (PrimFloat.eqb x 0%float) && PrimFloat.eqb x x.

End Js.

(* ===================================================================== *)
(** * Globals of the application *)
(* ===================================================================== *)

Module App.

(** Modelled from the spec: the translation lookup [t] is a global that is
    not among the sources; the spec quotes the interface texts as they are
    written in the code, which is the lookup without a catalogue. *)
Definition t (text : string) : string := text.

End App.

(* ===================================================================== *)
(** * submissionModal.tsx *)
(* ===================================================================== *)

Module SubmissionModal.
Import Js App.

(** ** Data *)

(** A submission record is a JavaScript object: field name to value. *)
Abbreviation SubmissionResponse := (gmap string JsValue).

Definition dquote : string := String (ascii_of_nat 34) EmptyString.

(** [const DETAIL_NOT_FOUND = '{"detail":"Not found."}'] *)
Definition DETAIL_NOT_FOUND : string :=
  Eval cbv in
    "{" +:+ dquote +:+ "detail" +:+ dquote +:+ ":" +:+ dquote +:+ "Not found."
    +:+ dquote +:+ "}".

(** The part of [AssetResponse] the modal reads. *)
Record AssetResponse : Type := {
  uid : string;
  deployment__active : bool;
  translations : option (list (option string));   (* asset.content?.translations *)
}.

(** [tableInfo: {resultsTotal, pageSize, currentPage} | boolean] *)
Record TablePage : Type := {
  resultsTotal : Z;
  pageSize : Z;
  currentPage : Z;
}.

Inductive TableInfo : Type :=
| TableInfoBoolean (b : bool)
| TableInfoPage (page : TablePage).

Module Props.
Record SubmissionModalProps : Type := {
  sid : string;
  asset : AssetResponse;
  ids : list Z;
  isDuplicated : bool;
  duplicatedSubmission : option SubmissionResponse;
  tableInfo : TableInfo;
}.
End Props.
Abbreviation SubmissionModalProps := Props.SubmissionModalProps.

Record TranslationOption : Type := {
  value : string;
  label : string;
}.

(** [string | boolean], where [false] is "no error". *)
Inductive FetchError : Type :=
| NoError
| ErrorMessage (message : string).

Record SubmissionModalState : Type := {
  submission : option SubmissionResponse;
  isFetchingSubmissionData : bool;
  submissionDataFetchError : FetchError;
  previous : Z;
  next : Z;
  sid : string;
  isEnketoEditLoading : bool;
  isEnketoViewLoading : bool;
  isDuplicated : bool;
  duplicatedSubmission : option SubmissionResponse;
  isEditingDuplicate : bool;
  isRefreshNeeded : bool;
  translationIndex : Z;
  translationOptions : list TranslationOption;
  showXMLNames : bool;
  isValidationStatusChangePending : bool;
}.

(** The part of [FailResponse] the modal reads. *)
Record FailResponse : Type := {
  responseText : option string;
  statusText : option string;
}.

(** ** [setState] with one key *)

Definition set_submission (v : option SubmissionResponse) (s : SubmissionModalState) :=
  {| submission := v;
     isFetchingSubmissionData := isFetchingSubmissionData s;
     submissionDataFetchError := submissionDataFetchError s;
     previous := previous s; next := next s; sid := sid s;
     isEnketoEditLoading := isEnketoEditLoading s;
     isEnketoViewLoading := isEnketoViewLoading s;
     isDuplicated := isDuplicated s;
     duplicatedSubmission := duplicatedSubmission s;
     isEditingDuplicate := isEditingDuplicate s;
     isRefreshNeeded := isRefreshNeeded s;
     translationIndex := translationIndex s;
     translationOptions := translationOptions s;
     showXMLNames := showXMLNames s;
     isValidationStatusChangePending := isValidationStatusChangePending s |}.

Definition set_isFetchingSubmissionData (v : bool) (s : SubmissionModalState) :=
  {| submission := submission s;
     isFetchingSubmissionData := v;
     submissionDataFetchError := submissionDataFetchError s;
     previous := previous s; next := next s; sid := sid s;
     isEnketoEditLoading := isEnketoEditLoading s;
     isEnketoViewLoading := isEnketoViewLoading s;
     isDuplicated := isDuplicated s;
     duplicatedSubmission := duplicatedSubmission s;
     isEditingDuplicate := isEditingDuplicate s;
     isRefreshNeeded := isRefreshNeeded s;
     translationIndex := translationIndex s;
     translationOptions := translationOptions s;
     showXMLNames := showXMLNames s;
     isValidationStatusChangePending := isValidationStatusChangePending s |}.

Definition set_submissionDataFetchError (v : FetchError) (s : SubmissionModalState) :=
  {| submission := submission s;
     isFetchingSubmissionData := isFetchingSubmissionData s;
     submissionDataFetchError := v;
     previous := previous s; next := next s; sid := sid s;
     isEnketoEditLoading := isEnketoEditLoading s;
     isEnketoViewLoading := isEnketoViewLoading s;
     isDuplicated := isDuplicated s;
     duplicatedSubmission := duplicatedSubmission s;
     isEditingDuplicate := isEditingDuplicate s;
     isRefreshNeeded := isRefreshNeeded s;
     translationIndex := translationIndex s;
     translationOptions := translationOptions s;
     showXMLNames := showXMLNames s;
     isValidationStatusChangePending := isValidationStatusChangePending s |}.

Definition set_previous (v : Z) (s : SubmissionModalState) :=
  {| submission := submission s;
     isFetchingSubmissionData := isFetchingSubmissionData s;
     submissionDataFetchError := submissionDataFetchError s;
     previous := v; next := next s; sid := sid s;
     isEnketoEditLoading := isEnketoEditLoading s;
     isEnketoViewLoading := isEnketoViewLoading s;
     isDuplicated := isDuplicated s;
     duplicatedSubmission := duplicatedSubmission s;
     isEditingDuplicate := isEditingDuplicate s;
     isRefreshNeeded := isRefreshNeeded s;
     translationIndex := translationIndex s;
     translationOptions := translationOptions s;
     showXMLNames := showXMLNames s;
     isValidationStatusChangePending := isValidationStatusChangePending s |}.

Definition set_next (v : Z) (s : SubmissionModalState) :=
  {| submission := submission s;
     isFetchingSubmissionData := isFetchingSubmissionData s;
     submissionDataFetchError := submissionDataFetchError s;
     previous := previous s; next := v; sid := sid s;
     isEnketoEditLoading := isEnketoEditLoading s;
     isEnketoViewLoading := isEnketoViewLoading s;
     isDuplicated := isDuplicated s;
     duplicatedSubmission := duplicatedSubmission s;
     isEditingDuplicate := isEditingDuplicate s;
     isRefreshNeeded := isRefreshNeeded s;
     translationIndex := translationIndex s;
     translationOptions := translationOptions s;
     showXMLNames := showXMLNames s;
     isValidationStatusChangePending := isValidationStatusChangePending s |}.

Definition set_sid (v : string) (s : SubmissionModalState) :=
  {| submission := submission s;
     isFetchingSubmissionData := isFetchingSubmissionData s;
     submissionDataFetchError := submissionDataFetchError s;
     previous := previous s; next := next s; sid := v;
     isEnketoEditLoading := isEnketoEditLoading s;
     isEnketoViewLoading := isEnketoViewLoading s;
     isDuplicated := isDuplicated s;
     duplicatedSubmission := duplicatedSubmission s;
     isEditingDuplicate := isEditingDuplicate s;
     isRefreshNeeded := isRefreshNeeded s;
     translationIndex := translationIndex s;
     translationOptions := translationOptions s;
     showXMLNames := showXMLNames s;
     isValidationStatusChangePending := isValidationStatusChangePending s |}.

Definition set_isRefreshNeeded (v : bool) (s : SubmissionModalState) :=
  {| submission := submission s;
     isFetchingSubmissionData := isFetchingSubmissionData s;
     submissionDataFetchError := submissionDataFetchError s;
     previous := previous s; next := next s; sid := sid s;
     isEnketoEditLoading := isEnketoEditLoading s;
     isEnketoViewLoading := isEnketoViewLoading s;
     isDuplicated := isDuplicated s;
     duplicatedSubmission := duplicatedSubmission s;
     isEditingDuplicate := isEditingDuplicate s;
     isRefreshNeeded := v;
     translationIndex := translationIndex s;
     translationOptions := translationOptions s;
     showXMLNames := showXMLNames s;
     isValidationStatusChangePending := isValidationStatusChangePending s |}.

Definition set_isValidationStatusChangePending (v : bool) (s : SubmissionModalState) :=
  {| submission := submission s;
     isFetchingSubmissionData := isFetchingSubmissionData s;
     submissionDataFetchError := submissionDataFetchError s;
     previous := previous s; next := next s; sid := sid s;
     isEnketoEditLoading := isEnketoEditLoading s;
     isEnketoViewLoading := isEnketoViewLoading s;
     isDuplicated := isDuplicated s;
     duplicatedSubmission := duplicatedSubmission s;
     isEditingDuplicate := isEditingDuplicate s;
     isRefreshNeeded := isRefreshNeeded s;
     translationIndex := translationIndex s;
     translationOptions := translationOptions s;
     showXMLNames := showXMLNames s;
     isValidationStatusChangePending := v |}.

(** ** Effects and handlers *)

(** [SubmissionPageName]: the table page asked for. *)
Inductive SubmissionPageName : Type := page_prev | page_next.

(** The argument of [pageState.showModal], as the modal builds it. *)
Inductive ModalParams : Type :=
| SubmissionParams (sid : Z) (asset : AssetResponse) (ids : list Z)
    (tableInfo : TableInfo)                        (* {type, sid, asset, ids, tableInfo} *)
| SubmissionPageParams (page : SubmissionPageName). (* {type, sid: false, page} *)

(** What a handler asks of the world outside the component. *)
Inductive Effect : Type :=
| dataInterface_getSubmission (assetUid sid : string)
| pageState_showModal (params : ModalParams)
| pageState_hideModal
| actions_refreshTableSubmissions.

(** A handler turns the state into a new state and lists its calls, in
    order.  None of the handlers below reads [this.state] after a [setState]
    that changes what it reads, so applying [setState] at once is exact. *)
Definition Handler : Type := SubmissionModalState → SubmissionModalState * list Effect.

Definition setState (f : SubmissionModalState → SubmissionModalState) : Handler :=
  λ s, (f s, []).

Definition call (e : Effect) : Handler := λ s, (s, [e]).

Definition skip : Handler := λ s, (s, []).

Definition andThen (h1 h2 : Handler) : Handler :=
  λ s, let '(s1, e1) := h1 s in
       let '(s2, e2) := h2 s1 in
       (s2, (e1 ++ e2)%list).

Declare Scope handler_scope.
Delimit Scope handler_scope with handler.
Bind Scope handler_scope with Handler.
Notation "h1 ;; h2" := (andThen h1 h2)
  (at level 100, h2 at level 200, right associativity) : handler_scope.
Local Open Scope handler_scope.

(** ** constructor *)

Definition constructor (props : SubmissionModalProps) : SubmissionModalState :=
  let translationOptions :=
    match translations (Props.asset props) with
    | Some trs =>
        if (1 <? Z.of_nat (length trs)) then
          map (λ trns, {| value := default "" (if truthyOptString trns then trns else None);
                          label := default (t "Unnamed language")
                                     (if truthyOptString trns then trns else None) |}) trs
        else []
    | None => []
    end in
  {| submission := None;
     isFetchingSubmissionData := true;
     submissionDataFetchError := NoError;
     previous := -1;
     next := -1;
     sid := Props.sid props;
     isEnketoEditLoading := false;
     isEnketoViewLoading := false;
     isDuplicated := Props.isDuplicated props;
     duplicatedSubmission := Props.duplicatedSubmission props;
     isEditingDuplicate := false;
     isRefreshNeeded := false;
     translationIndex := 0;
     translationOptions := translationOptions;
     showXMLNames := false;
     isValidationStatusChangePending := false |}.

(** ** refreshSubmissionValidationStatus *)

(** [clonedeep] of an immutable value is the value. *)
Definition clonedeep (s : SubmissionResponse) : SubmissionResponse := s.

Definition refreshSubmissionValidationStatus (result : JsValue) : Handler :=
  setState (set_isValidationStatusChangePending false) ;;
  λ s,
    match submission s with
    | None => skip s
    | Some current =>
        let newSubmissionData := clonedeep current in
        let newSubmissionData :=
          if truthy (Some result) && truthy (getProp result "uid")
          then <["_validation_status" := result]> newSubmissionData
          else <["_validation_status" := JsObj []]> newSubmissionData in
        setState (set_submission (Some newSubmissionData)) s
    end.

(** ** getSubmission *)

(** [this.props.tableInfo || false] *)
Definition tableInfoOrFalse (ti : TableInfo) : TableInfo :=
  match ti with
  | TableInfoBoolean b => TableInfoBoolean (b || false)
  | TableInfoPage p => TableInfoPage p
  end.

(** The body of the [done] callback up to its [setState]: the pair
    [(prev, next)]. *)
Definition siblings (ids : list Z) (tableInfoProp : TableInfo) (sid : string) : Z * Z :=
  let prev := -1 in
  let next := -1 in
  (* [this.props.ids] is an array, which is truthy *)
  if truthyString sid then
    let c := findIndex (λ k, strictEqNumber k (parseInt sid)) ids in
    let tableInfo := tableInfoOrFalse tableInfoProp in
    let prev := if truthyNumber (index ids (c - 1))
                then default prev (index ids (c - 1)) else prev in
    let next := if truthyNumber (index ids (c + 1))
                then default next (index ids (c + 1)) else next in
    (* table submissions pagination *)
    match tableInfo with
    | TableInfoPage tableInfo =>
        let nextAvailable :=
          resultsTotal tableInfo >? (currentPage tableInfo + 1) * pageSize tableInfo in
        let next := if (c + 1 =? Z.of_nat (length ids)) && nextAvailable
                    then -2 else next in
        let prev := if (currentPage tableInfo >? 0) && (prev =? -1)
                    then -2 else prev in
        (prev, next)
    | TableInfoBoolean _ => (prev, next)
    end
  else (prev, next).

(** The synchronous part: the flag is raised and the request leaves. *)
Definition getSubmission (assetUid sid : string) : Handler :=
  setState (set_isFetchingSubmissionData true) ;;
  call (dataInterface_getSubmission assetUid sid).

(** The [done] callback of the request. *)
Definition getSubmission_done (props : SubmissionModalProps) (sid : string)
    (data : SubmissionResponse) : Handler :=
  let '(prev, next) := siblings (Props.ids props) (Props.tableInfo props) sid in
  setState (λ s, set_previous prev
                   (set_next next
                      (set_isFetchingSubmissionData false
                         (set_submission (Some data) s)))).

Definition notFoundTemplate : string :=
  "The submission could not be found. It may have been deleted. Submission ID: ##id##".

(** The not-found text with [sid] in the place of [##id##]. *)
Definition notFoundMessage (sid : string) : string :=
  "The submission could not be found. It may have been deleted. Submission ID: "
  +:+ sid.

(** The [fail] callback of the request. *)
Definition getSubmission_fail (sid : string) (error : FailResponse) : Handler :=
  if truthyOptString (responseText error) then
    let error_message := default "" (responseText error) in
    let error_message :=
      if String.eqb error_message DETAIL_NOT_FOUND
      then replace (t notFoundTemplate) "##id##" sid
      else error_message in
    setState (λ s, set_isFetchingSubmissionData false
                     (set_submissionDataFetchError (ErrorMessage error_message) s))
  else if truthyOptString (statusText error) then
    setState (λ s, set_isFetchingSubmissionData false
                     (set_submissionDataFetchError
                        (ErrorMessage (default "" (statusText error))) s))
  else
    setState (λ s, set_isFetchingSubmissionData false
                     (set_submissionDataFetchError
                        (ErrorMessage (t "Error: could not load data.")) s)).

(** ** Life cycle *)

(** [componentDidMount]; the three listeners it registers are the handlers
    [refreshSubmissionValidationStatus] and [onDeletedSubmissionCompleted]. *)
Definition componentDidMount (props : SubmissionModalProps) : Handler :=
  λ s, getSubmission (uid (Props.asset props)) (sid s) s.

(** [getDerivedStateFromProps]; the key [promptRefresh] it also returns is
    not a key of the state and nothing reads it. *)
Definition getDerivedStateFromProps (props : SubmissionModalProps)
    (state : SubmissionModalState) : SubmissionModalState :=
  if negb (String.eqb (sid state) (Props.sid props))
  then set_sid (Props.sid props) state
  else state.

(** [componentDidUpdate]; [this.props.asset] is an object, which is truthy. *)
Definition componentDidUpdate (prevProps props : SubmissionModalProps) : Handler :=
  if negb (String.eqb (Props.sid prevProps) (Props.sid props))
  then getSubmission (uid (Props.asset props)) (Props.sid props)
  else skip.

Definition onDeletedSubmissionCompleted : Handler := call pageState_hideModal.

(** ** Refresh and navigation *)

Definition triggerRefresh (props : SubmissionModalProps) : Handler :=
  getSubmission (uid (Props.asset props)) (Props.sid props) ;;
  setState (set_isRefreshNeeded false) ;;
  call actions_refreshTableSubmissions.

Definition switchSubmission (props : SubmissionModalProps) (prevOrNext : Z) : Handler :=
  setState (set_isFetchingSubmissionData true) ;;
  call (pageState_showModal
          (SubmissionParams prevOrNext (Props.asset props) (Props.ids props)
             (tableInfoOrFalse (Props.tableInfo props)))).

Definition switchSubmissionFromOtherTablePage (newPage : SubmissionPageName) : Handler :=
  setState (set_isFetchingSubmissionData true) ;;
  call (pageState_showModal (SubmissionPageParams newPage)).

(** The [onClick] of the "Previous" and of the "Next" button. *)
Definition onClickPrevious (props : SubmissionModalProps) : Handler :=
  λ s, if previous s =? -2
       then switchSubmissionFromOtherTablePage page_prev s
       else switchSubmission props (previous s) s.

Definition onClickNext (props : SubmissionModalProps) : Handler :=
  λ s, if next s =? -2
       then switchSubmissionFromOtherTablePage page_next s
       else switchSubmission props (next s) s.

(** ** render: what the modal shows *)

Inductive View : Type :=
| Fetching        (* <LoadingSpinner /> *)
| Errored (message : string)
| UnknownError
| Displaying (submission : SubmissionResponse).

Definition render (s : SubmissionModalState) : View :=
  if isFetchingSubmissionData s then Fetching
  else match submissionDataFetchError s with
       | ErrorMessage message => Errored message
       | NoError =>
           match submission s with
           | None => UnknownError
           | Some record => Displaying record
           end
       end.

(** Modelled from the spec: [pageState.showModal] belongs to the page-level
    store, which is not among the sources.  The spec has it replace the modal
    "by closing and reopening the modal with new parameters": the component
    is constructed from the new props and mounted. *)
Definition reopen (newProps : SubmissionModalProps) : SubmissionModalState * list Effect :=
  componentDidMount newProps (constructor newProps).

(** ** The sentinel rules, in the words of the specification *)

(** The place of the current identifier in the loaded list. *)
Definition position (ids : list Z) (current : Z) : option nat :=
  fst <$> list_find (λ k, k = current) ids.

(** "the adjacent identifier in [ids] when it exists in the loaded list" *)
Definition adjacentPrevious (ids : list Z) (current : Z) : option Z :=
  match position ids current with
  | Some (S i) => ids !! i
  | _ => None
  end.

Definition adjacentNext (ids : list Z) (current : Z) : option Z :=
  match position ids current with
  | Some i => ids !! S i
  | None => None
  end.

(** "the current id is the last element of the loaded list" *)
Definition isLast (ids : list Z) (current : Z) : bool :=
  match position ids current with
  | Some i => Nat.eqb (S i) (length ids)
  | None => false
  end.

(** "tableInfo.resultsTotal > (tableInfo.currentPage + 1) * tableInfo.pageSize" *)
Definition nextPageAvailable (ti : TableInfo) : bool :=
  match ti with
  | TableInfoPage p => resultsTotal p >? (currentPage p + 1) * pageSize p
  | TableInfoBoolean _ => false
  end.

(** "tableInfo.currentPage > 0" *)
Definition previousPageAvailable (ti : TableInfo) : bool :=
  match ti with
  | TableInfoPage p => currentPage p >? 0
  | TableInfoBoolean _ => false
  end.

(** The adjacent identifier when it exists; [-2] for a sibling on a page
    that is not loaded; [-1] when there is no sibling at all. *)
Definition spec_previous (ids : list Z) (current : Z) (ti : TableInfo) : Z :=
  match adjacentPrevious ids current with
  | Some a => a
  | None => if previousPageAvailable ti then -2 else -1
  end.

Definition spec_next (ids : list Z) (current : Z) (ti : TableInfo) : Z :=
  match adjacentNext ids current with
  | Some a => a
  | None => if isLast ids current && nextPageAvailable ti then -2 else -1
  end.

(** ** The other handlers of the modal *)

Definition set_isEnketoEditLoading (v : bool) (s : SubmissionModalState) :=
  {| submission := submission s;
     isFetchingSubmissionData := isFetchingSubmissionData s;
     submissionDataFetchError := submissionDataFetchError s;
     previous := previous s; next := next s; sid := sid s;
     isEnketoEditLoading := v;
     isEnketoViewLoading := isEnketoViewLoading s;
     isDuplicated := isDuplicated s;
     duplicatedSubmission := duplicatedSubmission s;
     isEditingDuplicate := isEditingDuplicate s;
     isRefreshNeeded := isRefreshNeeded s;
     translationIndex := translationIndex s;
     translationOptions := translationOptions s;
     showXMLNames := showXMLNames s;
     isValidationStatusChangePending := isValidationStatusChangePending s |}.

Definition set_isEnketoViewLoading (v : bool) (s : SubmissionModalState) :=
  {| submission := submission s;
     isFetchingSubmissionData := isFetchingSubmissionData s;
     submissionDataFetchError := submissionDataFetchError s;
     previous := previous s; next := next s; sid := sid s;
     isEnketoEditLoading := isEnketoEditLoading s;
     isEnketoViewLoading := v;
     isDuplicated := isDuplicated s;
     duplicatedSubmission := duplicatedSubmission s;
     isEditingDuplicate := isEditingDuplicate s;
     isRefreshNeeded := isRefreshNeeded s;
     translationIndex := translationIndex s;
     translationOptions := translationOptions s;
     showXMLNames := showXMLNames s;
     isValidationStatusChangePending := isValidationStatusChangePending s |}.

Definition set_isEditingDuplicate (v : bool) (s : SubmissionModalState) :=
  {| submission := submission s;
     isFetchingSubmissionData := isFetchingSubmissionData s;
     submissionDataFetchError := submissionDataFetchError s;
     previous := previous s; next := next s; sid := sid s;
     isEnketoEditLoading := isEnketoEditLoading s;
     isEnketoViewLoading := isEnketoViewLoading s;
     isDuplicated := isDuplicated s;
     duplicatedSubmission := duplicatedSubmission s;
     isEditingDuplicate := v;
     isRefreshNeeded := isRefreshNeeded s;
     translationIndex := translationIndex s;
     translationOptions := translationOptions s;
     showXMLNames := showXMLNames s;
     isValidationStatusChangePending := isValidationStatusChangePending s |}.

Definition set_translationIndex (v : Z) (s : SubmissionModalState) :=
  {| submission := submission s;
     isFetchingSubmissionData := isFetchingSubmissionData s;
     submissionDataFetchError := submissionDataFetchError s;
     previous := previous s; next := next s; sid := sid s;
     isEnketoEditLoading := isEnketoEditLoading s;
     isEnketoViewLoading := isEnketoViewLoading s;
     isDuplicated := isDuplicated s;
     duplicatedSubmission := duplicatedSubmission s;
     isEditingDuplicate := isEditingDuplicate s;
     isRefreshNeeded := isRefreshNeeded s;
     translationIndex := v;
     translationOptions := translationOptions s;
     showXMLNames := showXMLNames s;
     isValidationStatusChangePending := isValidationStatusChangePending s |}.

Definition set_showXMLNames (v : bool) (s : SubmissionModalState) :=
  {| submission := submission s;
     isFetchingSubmissionData := isFetchingSubmissionData s;
     submissionDataFetchError := submissionDataFetchError s;
     previous := previous s; next := next s; sid := sid s;
     isEnketoEditLoading := isEnketoEditLoading s;
     isEnketoViewLoading := isEnketoViewLoading s;
     isDuplicated := isDuplicated s;
     duplicatedSubmission := duplicatedSubmission s;
     isEditingDuplicate := isEditingDuplicate s;
     isRefreshNeeded := isRefreshNeeded s;
     translationIndex := translationIndex s;
     translationOptions := translationOptions s;
     showXMLNames := v;
     isValidationStatusChangePending := isValidationStatusChangePending s |}.

(** [EnketoActions.edit] and [EnketoActions.view] *)
Inductive EnketoActions : Type := EnketoActions_edit | EnketoActions_view.

(** The calls of all handlers: those of [Effect] and the calls of the
    handlers below. *)
Inductive Outcall : Type :=
| basic (e : Effect)
| enketoHandler_openSubmission (assetUid sid : string) (action : EnketoActions)
| actions_deleteSubmission (assetUid sid : string)
| actions_duplicateSubmission (assetUid sid : string)
    (submission : option SubmissionResponse)
| actions_removeSubmissionValidationStatus (assetUid sid : string)
| actions_updateSubmissionValidationStatus (assetUid sid : string)
    (validation_status_uid : string)
| alertify_confirm (title message ok cancel : string)
| dialog_destroy.

Definition Method : Type :=
  SubmissionModalState → SubmissionModalState * list Outcall.

Definition lift (h : Handler) : Method :=
  λ s, let '(s', calls) := h s in (s', basic <$> calls).

(** [launchEditSubmission], and what both callbacks of the promise of
    [enketoHandler.openSubmission] do. *)
Definition launchEditSubmission (props : SubmissionModalProps) : Method :=
  λ s, (set_isEditingDuplicate true
          (set_isEnketoEditLoading true (set_isRefreshNeeded true s)),
        [enketoHandler_openSubmission (uid (Props.asset props)) (sid s)
           EnketoActions_edit]).

Definition launchEditSubmission_settled : Method :=
  λ s, (set_isEnketoEditLoading false s, []).

Definition launchViewSubmission (props : SubmissionModalProps) : Method :=
  λ s, (set_isEnketoViewLoading true s,
        [enketoHandler_openSubmission (uid (Props.asset props)) (sid s)
           EnketoActions_view]).

Definition launchViewSubmission_settled : Method :=
  λ s, (set_isEnketoViewLoading false s, []).

Definition duplicateSubmission (props : SubmissionModalProps) : Method :=
  λ s, (s, [basic pageState_hideModal;
            actions_duplicateSubmission (uid (Props.asset props)) (sid s)
              (submission s)]).

(** [deleteSubmission] shows the dialog; [onok] and [oncancel] are its two
    callbacks. *)
Definition deleteSubmission : Method :=
  λ s, (s, [alertify_confirm (t "Delete submission?")
              (t "Are you sure you want to delete this submission?" +:+ " "
               +:+ t "This action cannot be undone" +:+ ".")
              (t "Delete") (t "Cancel")]).

Definition deleteSubmission_onok (props : SubmissionModalProps) : Method :=
  λ s, (s, [actions_deleteSubmission (uid (Props.asset props)) (Props.sid props)]).

Definition deleteSubmission_oncancel : Method :=
  λ s, (s, [dialog_destroy]).

Definition onShowXMLNamesChange (newValue : bool) : Method :=
  λ s, (set_showXMLNames newValue s, []).

(** [onLanguageChange]; [index || 0] is [index] unless [index] is [0]. *)
Definition onLanguageChange (newValue : option string) : Method :=
  λ s,
    let index :=
      findIndex (λ x, bool_decide (Some (value x) = newValue))
        (translationOptions s) in
    (set_translationIndex (if truthyNumber (Some index) then index else 0) s, []).

(** A value or the [TypeError] of reading a property of [undefined]. *)
Inductive Thrown (A : Type) : Type :=
| Returned (a : A)
| TypeError.
Arguments Returned {A} _.
Arguments TypeError {A}.

(** The two selects of [renderDropdowns]. *)
Record Dropdowns : Type := {
  languageSelected : option string;   (* [None]: the select is not rendered *)
  validationSelected : JsValue;       (* [selectedOption] *)
  validationPending : bool;
}.

(** ['uid' in status ? status.uid : null] *)
Definition selectedOption (submission : SubmissionResponse) : Thrown JsValue :=
  match submission !! "_validation_status" with
  | Some (JsObj fields) => Returned (default JsNull (assoc "uid" fields))
  | Some (JsArr _) => Returned JsNull
  | _ => TypeError
  end.

(** [renderDropdowns] without the [isDisabled] of the validation select
    (see [validationDisabled] below). *)
Definition renderDropdowns (props : SubmissionModalProps)
    (s : SubmissionModalState) : Thrown (option Dropdowns) :=
  match submission s with
  | Some current =>
      if negb (deployment__active (Props.asset props)) then Returned None
      else
        match selectedOption current with
        | TypeError => TypeError
        | Returned selected =>
            if 1 <? Z.of_nat (length (translationOptions s)) then
              match index (translationOptions s) (translationIndex s) with
              | Some option =>
                  Returned (Some {| languageSelected := Some (value option);
                                    validationSelected := selected;
                                    validationPending :=
                                      isValidationStatusChangePending s |})
              | None => TypeError
              end
            else
              Returned (Some {| languageSelected := None;
                                validationSelected := selected;
                                validationPending :=
                                  isValidationStatusChangePending s |})
        end
  | None => Returned None
  end.

(** [renderRefreshWarning]: whether the warning is rendered. *)
Definition renderRefreshWarning (s : SubmissionModalState) : bool :=
  isRefreshNeeded s.

Section Component.

(** [permissions/utils], [submissionUtils] and [validationStatus.constants]
    are not among the sources. *)
Variable userCan : string → AssetResponse → bool.
Variable userHasPermForSubmission :
  string → AssetResponse → SubmissionResponse → bool.
Variable markAttachmentAsDeleted : SubmissionResponse → string → SubmissionResponse.
Variable no_status : string.   (* ValidationStatusAdditionalName.no_status *)

Definition isSubmissionEditable (props : SubmissionModalProps)
    (s : SubmissionModalState) : bool :=
  match submission s with
  | Some current =>
      deployment__active (Props.asset props)
      && negb (isEnketoEditLoading s)
      && (userCan "change_submissions" (Props.asset props)
          || userHasPermForSubmission "change_submissions" (Props.asset props)
               current)
  | None => false
  end.

(** The [isDisabled] of the validation select. *)
Definition validationDisabled (props : SubmissionModalProps)
    (current : SubmissionResponse) : bool :=
  negb (userCan "validate_submissions" (Props.asset props)
        || userHasPermForSubmission "validate_submissions" (Props.asset props)
             current).

Definition onValidationStatusChange (props : SubmissionModalProps)
    (newValidationStatus : option string) : Method :=
  match newValidationStatus with
  | None => λ s, (s, [])
  | Some newValidationStatus =>
      λ s,
        (set_isValidationStatusChangePending true s,
         if String.eqb newValidationStatus no_status
         then [actions_removeSubmissionValidationStatus
                 (uid (Props.asset props)) (sid s)]
         else [actions_updateSubmissionValidationStatus
                 (uid (Props.asset props)) (sid s) newValidationStatus])
  end.

(** The [onChange] of the validation select. *)
Definition onValidationSelect (props : SubmissionModalProps)
    (newSelectedOption : option string) : Method :=
  match newSelectedOption with
  | Some castOption => onValidationStatusChange props (Some castOption)
  | None => onValidationStatusChange props (Some no_status)
  end.

Definition handleDeletedAttachment (attachmentUid : string) : Method :=
  λ s,
    match submission s with
    | Some current =>
        (set_submission (Some (markAttachmentAsDeleted current attachmentUid)) s,
         [basic actions_refreshTableSubmissions])
    | None => (s, [])
    end.

(** The group of buttons of [renderSubmissionActions] and of [renderEditButton]. *)
Record SubmissionActions : Type := {
  previousDisabled : bool;
  nextDisabled : bool;
  showXMLNamesChecked : bool;
  editDisabled : bool;
  editPending : bool;
  viewDisabled : bool;
  viewPending : bool;
  duplicateDisabled : bool;
  deleteDisabled : bool;
}.

Definition renderSubmissionActions (props : SubmissionModalProps)
    (s : SubmissionModalState) : option SubmissionActions :=
  match submission s with
  | None => None
  | Some current =>
      if isDuplicated s && negb (isEditingDuplicate s) then None
      else
        Some {| previousDisabled := previous s =? -1;
                nextDisabled := next s =? -1;
                showXMLNamesChecked := showXMLNames s;
                editDisabled := negb (isSubmissionEditable props s);
                editPending := isEnketoEditLoading s;
                viewDisabled :=
                  negb (userCan "view_submissions" (Props.asset props))
                  && negb (userHasPermForSubmission "view_submissions"
                             (Props.asset props) current);
                viewPending := isEnketoViewLoading s;
                duplicateDisabled := negb (isSubmissionEditable props s);
                deleteDisabled :=
                  negb (userCan "delete_submissions" (Props.asset props))
                  && negb (userHasPermForSubmission "delete_submissions"
                             (Props.asset props) current) |}
  end.

(** The box of [renderDuplicatedSubmissionSubheader]. *)
Record DuplicatedSubheader : Type := {
  sourceUuid : option JsValue;        (* duplicatedSubmission?._uuid *)
  subheaderEditDisabled : bool;
  discardRendered : bool;
  discardDisabled : bool;
}.

Definition renderDuplicatedSubmissionSubheader (props : SubmissionModalProps)
    (s : SubmissionModalState) : option DuplicatedSubheader :=
  match submission s with
  | None => None
  | Some current =>
      if negb (isDuplicated s) || isEditingDuplicate s then None
      else
        Some {| sourceUuid := duplicatedSubmission s ≫= λ d, d !! "_uuid";
                subheaderEditDisabled := negb (isSubmissionEditable props s);
                discardRendered :=
                  userCan "delete_submissions" (Props.asset props)
                  || userHasPermForSubmission "delete_submissions"
                       (Props.asset props) current;
                discardDisabled := negb (isSubmissionEditable props s) |}
  end.

(** ** The mounted modal *)

(** A mounted modal: its props and its state. *)
Record Mounted : Type := {
  props : SubmissionModalProps;
  state : SubmissionModalState;
}.

(** What can happen to a mounted modal: the callbacks of its requests, new
    props, and the events of its buttons and selects. *)
Inductive Event : Type :=
| ValidationStatusCompleted (result : JsValue)
| DeleteSubmissionCompleted
| GetSubmissionDone (sid : string) (data : SubmissionResponse)
| GetSubmissionFail (sid : string) (error : FailResponse)
| PropsReceived (newProps : SubmissionModalProps)
| EditClicked
| EditSettled
| ViewClicked
| ViewSettled
| DuplicateClicked
| DeleteClicked
| DeleteConfirmed
| DeleteCancelled
| RefreshClicked
| PreviousClicked
| NextClicked
| ShowXMLNamesChanged (newValue : bool)
| ValidationSelected (newSelectedOption : option string)
| LanguageSelected (newSelectedOption : option string)
| AttachmentDeleted (attachmentUid : string).

Definition method (p : SubmissionModalProps) (e : Event) : Method :=
  match e with
  | ValidationStatusCompleted result =>
      lift (refreshSubmissionValidationStatus result)
  | DeleteSubmissionCompleted => lift onDeletedSubmissionCompleted
  | GetSubmissionDone sid data => lift (getSubmission_done p sid data)
  | GetSubmissionFail sid error => lift (getSubmission_fail sid error)
  | PropsReceived newProps =>
      λ s, lift (componentDidUpdate p newProps)
             (getDerivedStateFromProps newProps s)
  | EditClicked => launchEditSubmission p
  | EditSettled => launchEditSubmission_settled
  | ViewClicked => launchViewSubmission p
  | ViewSettled => launchViewSubmission_settled
  | DuplicateClicked => duplicateSubmission p
  | DeleteClicked => deleteSubmission
  | DeleteConfirmed => deleteSubmission_onok p
  | DeleteCancelled => deleteSubmission_oncancel
  | RefreshClicked => lift (triggerRefresh p)
  | PreviousClicked => lift (onClickPrevious p)
  | NextClicked => lift (onClickNext p)
  | ShowXMLNamesChanged newValue => onShowXMLNamesChange newValue
  | ValidationSelected newSelectedOption => onValidationSelect p newSelectedOption
  | LanguageSelected newSelectedOption => onLanguageChange newSelectedOption
  | AttachmentDeleted attachmentUid => handleDeletedAttachment attachmentUid
  end.

Definition propsAfter (p : SubmissionModalProps) (e : Event) : SubmissionModalProps :=
  match e with
  | PropsReceived newProps => newProps
  | _ => p
  end.

Definition step (m : Mounted) (e : Event) : Mounted * list Outcall :=
  let '(s', calls) := method (props m) e (state m) in
  ({| props := propsAfter (props m) e; state := s' |}, calls).

(** The modal and its calls after a history of events, oldest first. *)
Fixpoint run (m : Mounted) (events : list Event) : Mounted * list Outcall :=
  match events with
  | [] => (m, [])
  | e :: rest =>
      let '(m1, calls1) := step m e in
      let '(m2, calls2) := run m1 rest in
      (m2, (calls1 ++ calls2)%list)
  end.

End Component.

(** [constructor] and [componentDidMount]. *)
Definition mount (p : SubmissionModalProps) : Mounted * list Outcall :=
  let '(s, calls) := lift (componentDidMount p) (constructor p) in
  ({| props := p; state := s |}, calls).

(** The callbacks of the request of [getSubmission]. *)
Definition isAnswer (e : Event) : bool :=
  match e with
  | GetSubmissionDone _ _ | GetSubmissionFail _ _ => true
  | _ => false
  end.

Definition isValidationStatusCompleted (e : Event) : bool :=
  match e with
  | ValidationStatusCompleted _ => true
  | _ => false
  end.

(** The asset and the submission a call names, for the calls that name one. *)
Definition namesSubmission (c : Outcall) : option (string * string) :=
  match c with
  | basic (dataInterface_getSubmission assetUid sid)
  | enketoHandler_openSubmission assetUid sid _
  | actions_deleteSubmission assetUid sid
  | actions_duplicateSubmission assetUid sid _
  | actions_removeSubmissionValidationStatus assetUid sid
  | actions_updateSubmissionValidationStatus assetUid sid _ => Some (assetUid, sid)
  | _ => None
  end.

Definition isDeleteCall (c : Outcall) : bool :=
  match c with
  | actions_deleteSubmission _ _ => true
  | _ => false
  end.

(** ** Inputs for the examples *)

Definition exampleAsset : AssetResponse :=
  {| uid := "aXyz"; deployment__active := true; translations := None |}.

Definition examplePage (total size page : Z) : TableInfo :=
  TableInfoPage {| resultsTotal := total; pageSize := size; currentPage := page |}.

Definition exampleProps (sid : string) (ids : list Z) (ti : TableInfo)
    : SubmissionModalProps :=
  {| Props.sid := sid; Props.asset := exampleAsset; Props.ids := ids;
     Props.isDuplicated := false; Props.duplicatedSubmission := None;
     Props.tableInfo := ti |}.

Definition exampleMarker (record : SubmissionResponse) (attachmentUid : string)
    : SubmissionResponse := record.

Definition exampleUserCan (permission : string) (asset : AssetResponse) : bool := true.

Definition exampleUserHasPerm (permission : string) (asset : AssetResponse)
    (record : SubmissionResponse) : bool := false.

Definition exampleRun : Mounted → list Event → Mounted * list Outcall :=
  run exampleMarker "no_status".

End SubmissionModal.

(* ===================================================================== *)
(** * ProtectorHelpers *)
(* ===================================================================== *)

Module Protector.

(** What a guarded call does to the browser: it may put a blocking yes/no
    question to the user ([confirm]) and it may call the callback. *)
Inductive Script : Type :=
| Done
| Confirm (message : string) (answer : bool → Script)
| Callback (rest : Script).

Section SafeExecute.

(** The text of the question comes from [protectorConstants], which is
    not among the sources. *)
Variable UNSAVED_CHANGES_WARNING : string.

Definition safeExecute (shouldProtect : bool) : Script :=
  if shouldProtect then
    Confirm UNSAVED_CHANGES_WARNING
      (λ confirmed, if confirmed then Callback Done else Done)
  else
    Callback Done.

End SafeExecute.

(** Running a script against a user who answers question [q] with [user q]. *)

(** How often the callback is called. *)
Fixpoint invocations (user : string → bool) (p : Script) : nat :=
  match p with
  | Done => 0
  | Confirm message answer => invocations user (answer (user message))
  | Callback rest => S (invocations user rest)
  end.

(** The questions put to the user. *)
Fixpoint prompts (user : string → bool) (p : Script) : list string :=
  match p with
  | Done => []
  | Confirm message answer => message :: prompts user (answer (user message))
  | Callback rest => prompts user rest
  end.

(** The effect on the world [W] the callback works on. *)
Fixpoint run {W : Type} (user : string → bool) (callback : W → W) (p : Script)
    (w : W) : W :=
  match p with
  | Done => w
  | Confirm message answer => run user callback (answer (user message)) w
  | Callback rest => run user callback rest (callback w)
  end.

End Protector.

(* ===================================================================== *)
(** * useDisplayPrice *)
(* ===================================================================== *)

Module DisplayPrice.
Import Js App.

(** [price.recurring] *)
Record Recurring : Type := {
  interval : string;
}.

Section UseDisplayPrice.

(** [stripe.types] and [stripe.utils] are not among the sources: the type
    of [transform_quantity] and the function computing the adjustment
    factor are left open, as is [Number::toString] (see [Js.toFixed2]). *)
Variable TransformQuantity : Type.
Variable getAdjustedQuantityForPrice : float → option TransformQuantity → float.
Variable Number_toString : float → string.

Record Price : Type := {
  unit_amount : option float;
  recurring : option Recurring;
  transform_quantity : option TransformQuantity;
}.

(** [price?.recurring?.interval] *)
Definition recurringInterval (price : Price) : option string :=
  interval <$> recurring price.

(** [useMemo] caches the result per [(submissionQuantity, price)] and does
    not change it.  An absent [submissionQuantity] is [1]. *)
Definition useDisplayPrice (price : option Price) (submissionQuantity : option float)
    : string :=
  let submissionQuantity := default 1%float submissionQuantity in
  match price with
  | None => t "Free"
  | Some price =>
      match unit_amount price with
      | None => t "Free"
      | Some amount =>
          if negb (truthyFloat amount) then t "Free"
          else
            let totalPrice := (amount / 100)%float in
            let totalPrice :=
              if bool_decide (recurringInterval price = Some "year")
              then (totalPrice / 12)%float else totalPrice in
            let totalPrice :=
              (totalPrice *
               getAdjustedQuantityForPrice submissionQuantity
                 (transform_quantity price))%float in
            if negb (truthyOptString (recurringInterval price))
            then replace (t "$##price##") "##price##"
                   (toFixed2 Number_toString totalPrice)
            else replace (t "$##price## USD/month") "##price##"
                   (toFixed2 Number_toString totalPrice)
      end
  end.

End UseDisplayPrice.

Arguments unit_amount {TransformQuantity} _.
Arguments recurring {TransformQuantity} _.
Arguments transform_quantity {TransformQuantity} _.
Arguments recurringInterval {TransformQuantity} _.
Arguments useDisplayPrice {TransformQuantity} _ _ _ _.

End DisplayPrice.

(* ===================================================================== *)
(** * analysisTab.component.tsx *)
(* ===================================================================== *)

Module AnalysisTab.

(** ** The reducer *)

(** Modelled from the spec: [analysisQuestions.reducer] ([initialState],
    [analysisQuestionsReducer]) is not among the sources.  The spec gives a
    question as a definition paired with zero or one response value, the
    state as [{questions, hasUnsavedWork}], three kinds of action
    (initialize with schema and responses, edit a response, mark saved), and
    [hasUnsavedWork] as a derived boolean, recomputed on each mutation, that
    tells whether any response differs from its last-saved value. *)
Record AnalysisQuestion : Type := {
  uuid : string;
  response : option string;
  lastSaved : option string;
}.

Record AnalysisQuestionsState : Type := {
  questions : list AnalysisQuestion;
  hasUnsavedWork : bool;
}.

Inductive AnalysisQuestionsAction : Type :=
| setQuestions (payload : list AnalysisQuestion)
| updateResponse (questionUuid : string) (newResponse : option string)
| markSaved.

(** Modelled from the spec: "any response differs from its last-saved value". *)
Definition differs (q : AnalysisQuestion) : bool :=
  negb (bool_decide (response q = lastSaved q)).

Definition anyUnsaved (qs : list AnalysisQuestion) : bool := existsb differs qs.

(** Modelled from the spec: the responses that come with the schema are the
    saved ones. *)
Definition asLoaded (q : AnalysisQuestion) : AnalysisQuestion :=
  {| uuid := uuid q; response := response q; lastSaved := response q |}.

(** Modelled from the spec: "edit a response" gives the question named a
    new response and leaves its last-saved value. *)
Definition edit (questionUuid : string) (newResponse : option string)
    (q : AnalysisQuestion) : AnalysisQuestion :=
  if String.eqb (uuid q) questionUuid
  then {| uuid := uuid q; response := newResponse; lastSaved := lastSaved q |}
  else q.

(** Modelled from the spec: the state before the questions are set. *)
Definition initialState : AnalysisQuestionsState :=
  {| questions := []; hasUnsavedWork := false |}.

(** Modelled from the spec: the transition function; [hasUnsavedWork] is
    recomputed from the questions on each mutation. *)
Definition analysisQuestionsReducer (state : AnalysisQuestionsState)
    (action : AnalysisQuestionsAction) : AnalysisQuestionsState :=
  let questions' :=
    match action with
    | setQuestions payload => map asLoaded payload
    | updateResponse questionUuid newResponse =>
        map (edit questionUuid newResponse) (questions state)
    | markSaved => map asLoaded (questions state)
    end in
  {| questions := questions'; hasUnsavedWork := anyUnsaved questions' |}.

(** ** The component *)

(** The state of the hooks of [AnalysisTab], and the flag of
    [singleProcessingStore] that [setAnalysisTabHasUnsavedChanges] writes. *)
Record Tab : Type := {
  isInitialised : bool;
  isErrored : bool;
  state : AnalysisQuestionsState;
  (** the dependency [state.hasUnsavedWork] at the last run of the second
      effect; [None] before the first commit *)
  effectDependency : option bool;
  analysisTabHasUnsavedChanges : bool;
}.

(** The second [useEffect]: after a render it runs when it has not run yet
    or when [state.hasUnsavedWork] is not what it was at its last run. *)
Definition commit (tab : Tab) : Tab :=
  if bool_decide (effectDependency tab = Some (hasUnsavedWork (state tab)))
  then tab
  else {| isInitialised := isInitialised tab;
          isErrored := isErrored tab;
          state := state tab;
          effectDependency := Some (hasUnsavedWork (state tab));
          analysisTabHasUnsavedChanges := hasUnsavedWork (state tab) |}.

(** [dispatch(action)], the render it causes and its commit. *)
Definition dispatch (action : AnalysisQuestionsAction) (tab : Tab) : Tab :=
  commit {| isInitialised := isInitialised tab;
            isErrored := isErrored tab;
            state := analysisQuestionsReducer (state tab) action;
            effectDependency := effectDependency tab;
            analysisTabHasUnsavedChanges := analysisTabHasUnsavedChanges tab |}.

Definition setIsInitialised (v : bool) (tab : Tab) : Tab :=
  commit {| isInitialised := v;
            isErrored := isErrored tab;
            state := state tab;
            effectDependency := effectDependency tab;
            analysisTabHasUnsavedChanges := analysisTabHasUnsavedChanges tab |}.

Definition setIsErrored (v : bool) (tab : Tab) : Tab :=
  commit {| isInitialised := isInitialised tab;
            isErrored := v;
            state := state tab;
            effectDependency := effectDependency tab;
            analysisTabHasUnsavedChanges := analysisTabHasUnsavedChanges tab |}.

(** The first render and its commit; [storeFlag] is what the store held. *)
Definition mount (storeFlag : bool) : Tab :=
  commit {| isInitialised := false;
            isErrored := false;
            state := initialState;
            effectDependency := None;
            analysisTabHasUnsavedChanges := storeFlag |}.

Section SetupQuestions.

(** [assetUtils], [utils] and the API client are not among the sources. *)
Variables AdvancedFeatures ApiResponse : Type.
Variable getQuestionsFromSchema : AdvancedFeatures → list AnalysisQuestion.
Variable applyUpdateResponseToInternalQuestions :
  string → ApiResponse → list AnalysisQuestion → list AnalysisQuestion.

(** How [await fetchGetUrl(processingUrl)] ends. *)
Inductive FetchOutcome : Type :=
| Fetched (apiResponse : ApiResponse)
| Failed.

(** [setupQuestions], from the moment its request is settled. *)
Definition setupQuestions (advancedFeatures : AdvancedFeatures)
    (processingUrl : option string) (currentQuestionXpath : string)
    (outcome : FetchOutcome) (tab : Tab) : Tab :=
  let questions := getQuestionsFromSchema advancedFeatures in
  if Js.truthyOptString processingUrl then
    match outcome with
    | Fetched apiResponse =>
        let questions :=
          applyUpdateResponseToInternalQuestions currentQuestionXpath
            apiResponse questions in
        setIsInitialised true
          (dispatch (setQuestions questions) tab)
    | Failed =>
        setIsErrored true (setIsInitialised true tab)
    end
  else
    setIsInitialised true (dispatch (setQuestions questions) tab).

End SetupQuestions.

Arguments Fetched {ApiResponse} _.
Arguments Failed {ApiResponse}.
Arguments setupQuestions {AdvancedFeatures ApiResponse} _ _ _ _ _ _ _.

(** What can happen to a mounted tab: a child dispatches an action through
    the context, or one of the two [useState] hooks is set. *)
Inductive Event : Type :=
| Dispatched (action : AnalysisQuestionsAction)
| IsInitialisedSet (v : bool)
| IsErroredSet (v : bool).

Definition step (tab : Tab) (e : Event) : Tab :=
  match e with
  | Dispatched action => dispatch action tab
  | IsInitialisedSet v => setIsInitialised v tab
  | IsErroredSet v => setIsErrored v tab
  end.

(** The tab after a history of events, oldest first. *)
Definition after (events : list Event) (tab : Tab) : Tab :=
  fold_left step events tab.

(** ** What holds of a mounted tab *)

(** The reducer's state of a tab is what the reducer made of it. *)
Definition recomputed (tab : Tab) : Prop :=
  hasUnsavedWork (state tab) = anyUnsaved (questions (state tab)).

(** The flag of the store is what the effect wrote at its last run. *)
Definition written (tab : Tab) : Prop :=
  ∀ d, effectDependency tab = Some d → analysisTabHasUnsavedChanges tab = d.

(** The effect has run for the present value of [hasUnsavedWork]. *)
Definition forwarded (tab : Tab) : Prop :=
  effectDependency tab = Some (hasUnsavedWork (state tab)) ∧
  analysisTabHasUnsavedChanges tab = hasUnsavedWork (state tab).

(** ** What the tab renders *)

Inductive TabView : Type :=
| LoadingSpinner
| InlineMessage_error (message : string)
| Content (contextState : AnalysisQuestionsState).

Definition render (tab : Tab) : TabView :=
  if negb (isInitialised tab) then LoadingSpinner
  else if isErrored tab
       then InlineMessage_error (App.t "Failed to load analysis questions")
       else Content (state tab).

End AnalysisTab.

(* ===================================================================== *)
(** * Facts about the built-ins *)
(* ===================================================================== *)

Module JsFacts.
Import Js.

Lemma index_of_nat {A : Type} (arr : list A) (i : nat) :
  index arr (Z.of_nat i) = arr !! i.
Proof.
  unfold index. destruct (Z.of_nat i <? 0) eqn:E.
  - apply Z.ltb_lt in E. lia.
  - by rewrite Nat2Z.id.
Qed.

Lemma index_negative {A : Type} (arr : list A) (i : Z) :
  i < 0 → index arr i = None.
Proof.
  intros H. unfold index. destruct (i <? 0) eqn:E; [done|].
  apply Z.ltb_ge in E. lia.
Qed.

(** [findIndex] finds the first place where the predicate holds. *)
Lemma findIndexFrom_list_find (current : Z) (ids : list Z) (offset : Z) :
  findIndexFrom (λ k, strictEqNumber k (Some current)) ids offset =
  match list_find (λ k, k = current) ids with
  | Some (i, _) => offset + Z.of_nat i
  | None => -1
  end.
Proof.
  revert offset. induction ids as [|x ids IH]; intros offset; simpl; [done|].
  destruct (decide (x = current)) as [->|Hne].
  - rewrite Z.eqb_refl. simpl. lia.
  - destruct (x =? current) eqn:E; [apply Z.eqb_eq in E; done|].
    rewrite IH. destruct (list_find _ ids) as [[i y]|]; simpl; lia.
Qed.

Lemma findIndexFrom_none {A : Type} (p : A → bool) (arr : list A) (offset : Z) :
  Forall (λ x, p x = false) arr → findIndexFrom p arr offset = -1.
Proof.
  intros H. revert offset.
  induction H as [|x arr Hx _ IH]; intros offset; simpl; [done|].
  by rewrite Hx.
Qed.

(** Outside of the dollar sign every character of a replacement stands for
    itself. *)
Lemma getSubstitution_other (matched before after : string) (c : ascii)
    (rest : string) :
  Ascii.eqb c "$" = false →
  getSubstitution matched before after (String c rest) =
  String c (getSubstitution matched before after rest).
Proof.
  intros H.
  destruct c as [[] [] [] [] [] [] [] []]; try reflexivity; discriminate H.
Qed.

Lemma getSubstitution_dollarFree (matched before after r : string) :
  dollarFree r = true → getSubstitution matched before after r = r.
Proof.
  induction r as [|c r IH]; intros H; [done|].
  simpl in H. apply andb_prop in H as [Hc Hr].
  apply negb_true_iff in Hc.
  rewrite getSubstitution_other by done. by rewrite IH.
Qed.

Lemma replace_dollarFree (s p r before after : string) :
  splitFirst p s = Some (before, after) → dollarFree r = true →
  replace s p r = before +:+ r +:+ after.
Proof.
  intros Hs Hr. unfold replace. rewrite Hs.
  by rewrite getSubstitution_dollarFree.
Qed.

Lemma append_empty_r (s : string) : s +:+ "" = s.
Proof.
  induction s as [|c s IH]; [done|].
  change (String c (s +:+ "") = String c s). by f_equal.
Qed.

End JsFacts.

(* ===================================================================== *)
(** * Facts about the submission modal *)
(* ===================================================================== *)

Module SubmissionModalFacts.
Import Js JsFacts App SubmissionModal.

(** ** Previous and next *)

Lemma parseInt_truthy (sid : string) (current : Z) :
  parseInt sid = Some current → truthyString sid = true.
Proof. destruct sid; [discriminate | done]. Qed.

Lemma position_Some (ids : list Z) (current : Z) :
  current ∈ ids → ∃ i, position ids current = Some i ∧ ids !! i = Some current.
Proof.
  intros Hin. unfold position.
  destruct (list_find_elem_of (λ k, k = current) ids current Hin eq_refl)
    as [[i x] Hf].
  exists i. rewrite Hf. split; [done|].
  apply list_find_Some in Hf as (Hi & -> & _). done.
Qed.

Lemma findIndex_position (ids : list Z) (current : Z) :
  findIndex (λ k, strictEqNumber k (Some current)) ids =
  match position ids current with
  | Some i => Z.of_nat i
  | None => -1
  end.
Proof.
  unfold findIndex, position. rewrite findIndexFrom_list_find.
  destruct (list_find _ ids) as [[i x]|]; simpl; lia.
Qed.

Lemma truthy_positive (ids : list Z) (i : nat) (a : Z) :
  Forall (λ k, 0 < k) ids → ids !! i = Some a →
  truthyNumber (Some a) = true ∧ (a =? -1) = false.
Proof.
  intros Hpos Hi. rewrite Forall_lookup in Hpos. specialize (Hpos i a Hi).
  simpl in Hpos. unfold truthyNumber. split.
  - apply negb_true_iff, Z.eqb_neq. lia.
  - apply Z.eqb_neq. lia.
Qed.

(** The pair computed by the [done] callback when the current identifier is
    in the loaded list and identifiers are positive. *)
Lemma siblings_in_list (ids : list Z) (ti : TableInfo) (sid : string)
    (current : Z) :
  parseInt sid = Some current → current ∈ ids → Forall (λ k, 0 < k) ids →
  siblings ids ti sid = (spec_previous ids current ti, spec_next ids current ti).
Proof.
  intros Hp Hin Hpos. unfold siblings.
  rewrite (parseInt_truthy _ _ Hp), Hp, findIndex_position.
  destruct (position_Some _ _ Hin) as (i & Hi & Hcur).
  unfold spec_previous, spec_next, adjacentPrevious, adjacentNext, isLast.
  rewrite Hi.
  assert (Hlen : (i < length ids)%nat) by (eapply lookup_lt_Some; done).
  (* the element after the current one *)
  replace (Z.of_nat i + 1) with (Z.of_nat (S i)) by lia.
  rewrite index_of_nat.
  assert (Hnext :
    (if truthyNumber (ids !! S i) then default (-1) (ids !! S i) else -1) =
    default (-1) (ids !! S i)).
  { destruct (ids !! S i) as [a|] eqn:Ha; [|done].
    by destruct (truthy_positive _ _ _ Hpos Ha) as [-> _]. }
  rewrite Hnext. clear Hnext.
  (* the element before the current one *)
  assert (Hprev : ∃ before : option Z,
    index ids (Z.of_nat i - 1) = before ∧
    before = match i with S j => ids !! j | O => None end ∧
    (if truthyNumber before then default (-1) before else -1) = default (-1) before ∧
    (default (-1) before =? -1) = bool_decide (before = None)).
  { destruct i as [|j].
    - exists None. split; [by apply index_negative|]. done.
    - exists (ids !! j). replace (Z.of_nat (S j) - 1) with (Z.of_nat j) by lia.
      split; [apply index_of_nat|]. split; [done|].
      destruct (ids !! j) as [a|] eqn:Ha.
      + destruct (truthy_positive _ _ _ Hpos Ha) as [Ht Hm].
        unfold truthyNumber in *. simpl. unfold id. by rewrite Ht, Hm.
      + done. }
  destruct Hprev as (before & -> & Hbefore & -> & Hminus).
  rewrite <- Hbefore. clear Hbefore.
  destruct ti as [b|page];
    cbn [tableInfoOrFalse nextPageAvailable previousPageAvailable].
  - rewrite andb_false_r. by destruct before, (ids !! S i).
  - rewrite Hminus.
    assert (Hlast : (Z.of_nat (S i) =? Z.of_nat (length ids)) =
                    (S i =? length ids)%nat).
    { destruct (Nat.eqb_spec (S i) (length ids)) as [E|E].
      - apply Z.eqb_eq. lia.
      - apply Z.eqb_neq. lia. }
    rewrite Hlast. f_equal.
    + destruct before; simpl; [by rewrite andb_false_r|].
      by rewrite andb_true_r.
    + destruct (ids !! S i) as [a|] eqn:Ha; [|done].
      apply lookup_lt_Some in Ha.
      destruct (Nat.eqb_spec (S i) (length ids)); [lia|done].
Qed.


(** Claim C1, as amended.  When the identifiers of the loaded list are
    positive and the number read from [sid] is one of them, a successful
    fetch stores the sentinel rules' values: [previous] and [next] are the
    identifiers next to the first occurrence of the current one when the list
    has them; otherwise [next] is [-2] when the page information says that
    [resultsTotal > (currentPage + 1) * pageSize] and [-1] when not, and
    [previous] is [-2] when [currentPage > 0] and [-1] when not. *)
Theorem getSubmission_done_sentinels (props : SubmissionModalProps)
    (sid : string) (current : Z) (data : SubmissionResponse)
    (s : SubmissionModalState) :
  parseInt sid = Some current →
  current ∈ Props.ids props →
  Forall (λ k, 0 < k) (Props.ids props) →
  let s' := (getSubmission_done props sid data s).1 in
  previous s' = spec_previous (Props.ids props) current (Props.tableInfo props) ∧
  next s' = spec_next (Props.ids props) current (Props.tableInfo props).
Proof.
  intros Hp Hin Hpos. unfold getSubmission_done.
  rewrite (siblings_in_list _ _ _ _ Hp Hin Hpos). done.
Qed.

(** The last of three identifiers on the second of three pages: the
    identifier before it, and [-2] after it. *)
Lemma getSubmission_done_sentinels_witness :
  let props := exampleProps "30" [10; 20; 30] (examplePage 9 3 1) in
  let s' := (getSubmission_done props "30" ∅ (constructor props)).1 in
  previous s' = 20 ∧ next s' = -2.
Proof.
  intros props s'.
  assert (Hin : 30 ∈ Props.ids props) by (simpl; set_solver).
  assert (Hpos : Forall (λ k, 0 < k) (Props.ids props))
    by (simpl; repeat constructor).
  exact (getSubmission_done_sentinels props "30" 30 ∅ (constructor props)
           eq_refl Hin Hpos).
Defined.

(** Claim C1 as it is stated fails: with the identifiers 10, 20, 30 loaded,
    the only page, and the current identifier 99, which is not among them,
    there is no sibling at all and the rules give [-1] for [next]; the
    [done] callback stores 10, the first identifier of the list. *)
Lemma getSubmission_done_sentinels_counterexample :
  let props := exampleProps "99" [10; 20; 30] (examplePage 3 30 0) in
  let s' := (getSubmission_done props "99" ∅ (constructor props)).1 in
  parseInt "99" = Some 99 ∧
  next s' = 10 ∧
  spec_next (Props.ids props) 99 (Props.tableInfo props) = -1 ∧
  next s' ≠ spec_next (Props.ids props) 99 (Props.tableInfo props).
Proof. vm_compute. repeat split; discriminate. Qed.

(** Why the identifiers are taken positive: the identifier 0 before the
    current one is falsy and is passed over, and the identifier [-1] before
    the current one is taken for "none" when there is an earlier page. *)
Lemma getSubmission_done_zero_or_minus_one :
  siblings [0; 5] (examplePage 2 30 0) "5" = (-1, -1) ∧
  spec_previous [0; 5] 5 (examplePage 2 30 0) = 0 ∧
  siblings [-1; 5] (examplePage 32 30 1) "5" = (-2, -1) ∧
  spec_previous [-1; 5] 5 (examplePage 32 30 1) = -1.
Proof. vm_compute. done. Qed.

(** Claim C8.  When the list is not empty, [sid] is not the empty text and
    the number read from it is not in the list, [findIndex] returns [-1], and
    a successful fetch stores as [next] the first identifier of the list,
    provided it is truthy, and as [previous] [-2] when the page information
    has [currentPage > 0] and [-1] when not. *)
Theorem getSubmission_done_not_in_list (props : SubmissionModalProps)
    (sid : string) (data : SubmissionResponse) (s : SubmissionModalState)
    (first : Z) (rest : list Z) :
  Props.ids props = first :: rest →
  truthyString sid = true →
  Forall (λ k, parseInt sid ≠ Some k) (Props.ids props) →
  truthyNumber (Some first) = true →
  let s' := (getSubmission_done props sid data s).1 in
  findIndex (λ k, strictEqNumber k (parseInt sid)) (Props.ids props) = -1 ∧
  next s' = first ∧
  previous s' = if previousPageAvailable (Props.tableInfo props) then -2 else -1.
Proof.
  intros Hids Hsid Hnot Hfirst.
  assert (Hc : findIndex (λ k, strictEqNumber k (parseInt sid)) (Props.ids props) = -1).
  { apply findIndexFrom_none. eapply Forall_impl; [exact Hnot|].
    intros k Hk. simpl in Hk. unfold strictEqNumber.
    destruct (parseInt sid) as [n|]; [|done].
    apply Z.eqb_neq. congruence. }
  split; [exact Hc|].
  unfold getSubmission_done, siblings. rewrite Hsid, Hc, Hids.
  change (index (first :: rest) (-1 - 1)) with (@None Z).
  change (index (first :: rest) (-1 + 1)) with (Some first).
  rewrite Hfirst.
  destruct (Props.tableInfo props) as [b|page]; simpl; [done|].
  rewrite andb_true_r. split; [|done].
  destruct (Z.of_nat (length rest)); done.
Qed.

(** The identifiers 10, 20, 30 of the second page and the current
    identifier 99: [next] is 10 and [previous] is [-2]. *)
Lemma getSubmission_done_not_in_list_witness :
  let props := exampleProps "99" [10; 20; 30] (examplePage 9 3 1) in
  let s' := (getSubmission_done props "99" ∅ (constructor props)).1 in
  next s' = 10 ∧ previous s' = -2.
Proof.
  intros props s'.
  assert (Hnot : Forall (λ k, parseInt "99" ≠ Some k) (Props.ids props))
    by (simpl; repeat constructor; discriminate).
  exact (proj2 (getSubmission_done_not_in_list props "99" ∅ (constructor props)
                  10 [20; 30] eq_refl eq_refl Hnot eq_refl)).
Defined.


(** ** A failed fetch *)

Lemma splitFirst_notFoundTemplate :
  splitFirst "##id##" (t notFoundTemplate) =
  Some ("The submission could not be found. It may have been deleted. Submission ID: ", "").
Proof. reflexivity. Qed.

Lemma getSubmission_fail_effects (sid : string) (error : FailResponse)
    (s : SubmissionModalState) :
  (getSubmission_fail sid error s).2 = [].
Proof.
  unfold getSubmission_fail.
  destruct (truthyOptString (responseText error));
    [|destruct (truthyOptString (statusText error))]; done.
Qed.

(** Claim C5.  The message stored by a failed fetch: for the body
    [DETAIL_NOT_FOUND] it is the not-found text in which [String.replace]
    has put [sid] in the place of [##id##] (which is the text ending in
    [sid] itself when [sid] has no dollar sign); for any other body that is
    not empty it is the body; without body it is the status text when that
    is not empty, and ['Error: could not load data.'] when it is. *)
Theorem getSubmission_fail_message (sid : string) (error : FailResponse)
    (s : SubmissionModalState) :
  let stored := submissionDataFetchError (getSubmission_fail sid error s).1 in
  (responseText error = Some DETAIL_NOT_FOUND →
     stored = ErrorMessage (replace notFoundTemplate "##id##" sid) ∧
     (dollarFree sid = true → stored = ErrorMessage (notFoundMessage sid))) ∧
  (∀ body, responseText error = Some body → body ≠ "" →
     body ≠ DETAIL_NOT_FOUND → stored = ErrorMessage body) ∧
  (∀ status, truthyOptString (responseText error) = false →
     statusText error = Some status → status ≠ "" →
     stored = ErrorMessage status) ∧
  (truthyOptString (responseText error) = false →
     truthyOptString (statusText error) = false →
     stored = ErrorMessage "Error: could not load data.").
Proof.
  intros stored. subst stored. unfold getSubmission_fail.
  repeat split.
  - rewrite H. done.
  - intros Hfree. rewrite H. simpl. f_equal.
    etrans; [apply (replace_dollarFree _ _ _ _ _ splitFirst_notFoundTemplate Hfree)|].
    unfold notFoundMessage. by rewrite append_empty_r.
  - intros body Hbody Hne Hnf. rewrite Hbody. simpl.
    assert (Ht : truthyString body = true).
    { unfold truthyString. apply negb_true_iff, String.eqb_neq. done. }
    rewrite Ht. simpl.
    assert (He : String.eqb body DETAIL_NOT_FOUND = false)
      by (by apply String.eqb_neq).
    by rewrite He.
  - intros status Hno Hstatus Hne. rewrite Hno, Hstatus. simpl.
    assert (Ht : truthyString status = true).
    { unfold truthyString. apply negb_true_iff, String.eqb_neq. done. }
    by rewrite Ht.
  - intros Hno Hno'. by rewrite Hno, Hno'.
Qed.

Lemma getSubmission_fail_message_witness :
  submissionDataFetchError
    (getSubmission_fail "17"
       {| responseText := Some DETAIL_NOT_FOUND; statusText := Some "Not Found" |}
       (constructor (exampleProps "17" [10; 20; 30] (examplePage 3 30 0)))).1 =
  ErrorMessage
    "The submission could not be found. It may have been deleted. Submission ID: 17".
Proof.
  exact (proj2 (proj1 (getSubmission_fail_message "17"
           {| responseText := Some DETAIL_NOT_FOUND; statusText := Some "Not Found" |}
           (constructor (exampleProps "17" [10; 20; 30] (examplePage 3 30 0))))
           eq_refl) eq_refl).
Defined.

(** Claim C6.  A fetch that fails: from the state [s] before the fetch,
    [getSubmission] raises the flag and sends one request; its [fail]
    callback stores a message and lowers the flag, and that is all it does:
    it makes no call (so no second request), and [submission], [previous]
    and [next] are those of [s]. *)
Theorem getSubmission_fail_frame (assetUid sid : string) (error : FailResponse)
    (s : SubmissionModalState) :
  let started := getSubmission assetUid sid s in
  let failed := getSubmission_fail sid error started.1 in
  started.2 = [dataInterface_getSubmission assetUid sid] ∧
  failed.2 = [] ∧
  (∃ message,
     failed.1 = set_isFetchingSubmissionData false
                  (set_submissionDataFetchError (ErrorMessage message) started.1)) ∧
  isFetchingSubmissionData failed.1 = false ∧
  submission failed.1 = submission s ∧
  previous failed.1 = previous s ∧
  next failed.1 = next s.
Proof.
  intros started failed. subst started failed.
  split; [done|]. split; [apply getSubmission_fail_effects|].
  unfold getSubmission_fail.
  destruct (truthyOptString (responseText error));
    [|destruct (truthyOptString (statusText error))];
    (split; [eexists; reflexivity | done]).
Qed.

(** ** Navigation and refresh *)

(** Claim C7.  [switchSubmission], [switchSubmissionFromOtherTablePage] and
    [triggerRefresh] each leave the modal showing the spinner
    ([isFetchingSubmissionData] is true).  [triggerRefresh] sends the request
    for the record itself; the two others hand the target to
    [pageState.showModal], and the modal that the page store reopens starts
    without record and sends the request for its [sid] (as does a modal
    that is kept and given props with another [sid]).  The record held after
    the answer is the answer of the server. *)
Theorem navigation_and_refresh_reload (props : SubmissionModalProps)
    (s : SubmissionModalState) (prevOrNext : Z) (newPage : SubmissionPageName) :
  (let r := switchSubmission props prevOrNext s in
   render r.1 = Fetching ∧
   r.2 = [pageState_showModal
            (SubmissionParams prevOrNext (Props.asset props) (Props.ids props)
               (tableInfoOrFalse (Props.tableInfo props)))]) ∧
  (let r := switchSubmissionFromOtherTablePage newPage s in
   render r.1 = Fetching ∧
   r.2 = [pageState_showModal (SubmissionPageParams newPage)]) ∧
  (let r := triggerRefresh props s in
   render r.1 = Fetching ∧
   r.2 = [dataInterface_getSubmission (uid (Props.asset props)) (Props.sid props);
          actions_refreshTableSubmissions]) ∧
  (∀ newProps,
     let r := reopen newProps in
     render r.1 = Fetching ∧ submission r.1 = None ∧
     r.2 = [dataInterface_getSubmission (uid (Props.asset newProps))
              (Props.sid newProps)]) ∧
  (∀ newProps,
     Props.sid props ≠ Props.sid newProps →
     let r := componentDidUpdate props newProps
                (getDerivedStateFromProps newProps s) in
     render r.1 = Fetching ∧ sid r.1 = Props.sid newProps ∧
     r.2 = [dataInterface_getSubmission (uid (Props.asset newProps))
              (Props.sid newProps)]) ∧
  (∀ newProps sid' data s0,
     submission (getSubmission_done newProps sid' data s0).1 = Some data).
Proof.
  split; [done|]. split; [done|]. split; [done|]. split; [done|].
  split.
  - intros newProps Hne. apply String.eqb_neq in Hne.
    unfold componentDidUpdate, getDerivedStateFromProps. rewrite Hne. simpl.
    destruct (String.eqb_spec (sid s) (Props.sid newProps)) as [E|E]; done.
  - intros newProps sid' data s0. unfold getSubmission_done.
    by destruct (siblings _ _ _).
Qed.

Lemma navigation_and_refresh_reload_witness :
  let props := exampleProps "20" [10; 20; 30] (examplePage 3 30 0) in
  let newProps := exampleProps "30" [10; 20; 30] (examplePage 3 30 0) in
  let shown := (getSubmission_done props "20" ∅ (constructor props)).1 in
  let r := componentDidUpdate props newProps
             (getDerivedStateFromProps newProps (switchSubmission props 30 shown).1) in
  render r.1 = Fetching ∧ sid r.1 = "30" ∧
  r.2 = [dataInterface_getSubmission "aXyz" "30"].
Proof.
  intros props newProps shown r.
  assert (Hne : Props.sid props ≠ Props.sid newProps) by discriminate.
  exact (proj1 (proj2 (proj2 (proj2 (proj2
           (navigation_and_refresh_reload props (switchSubmission props 30 shown).1
              30 page_next))))) newProps Hne).
Defined.

(** The two buttons lead to the navigation handlers. *)
Lemma onClick_fetching (props : SubmissionModalProps) (s : SubmissionModalState) :
  render (onClickPrevious props s).1 = Fetching ∧
  render (onClickNext props s).1 = Fetching.
Proof.
  unfold onClickPrevious, onClickNext.
  destruct (previous s =? -2), (next s =? -2); done.
Qed.

(** ** The validation status *)

(** Claim C10.  [refreshSubmissionValidationStatus] makes no call and
    lowers [isValidationStatusChangePending].  Without a loaded submission
    that is all: the submission stays [null].  With one, the new submission
    has [_validation_status] set to the result when the result has a truthy
    [uid] and to the empty object when not, and every other field as before.
    No other key of the state changes. *)
Theorem refreshSubmissionValidationStatus_frame (result : JsValue)
    (s : SubmissionModalState) :
  let r := refreshSubmissionValidationStatus result s in
  r.2 = [] ∧
  isValidationStatusChangePending r.1 = false ∧
  r.1 = set_submission (submission r.1)
          (set_isValidationStatusChangePending false s) ∧
  match submission s with
  | None => submission r.1 = None
  | Some current =>
      ∃ updated,
        submission r.1 = Some updated ∧
        updated !! "_validation_status" =
          Some (if truthy (Some result) && truthy (getProp result "uid")
                then result else JsObj []) ∧
        ∀ field, field ≠ "_validation_status" →
                 updated !! field = current !! field
  end.
Proof.
  intros r. subst r. unfold refreshSubmissionValidationStatus.
  generalize (truthy (Some result) && truthy (getProp result "uid")).
  intros hasUid. unfold andThen, setState, skip, clonedeep.
  destruct s as [sub ? ? ? ? ? ? ? ? ? ? ? ? ? ? ?]. simpl.
  destruct sub as [current|]; simpl; [|done].
  repeat split.
  destruct hasUid.
  - eexists. split; [done|]. split; [apply lookup_insert_eq|].
    intros field Hne. by apply lookup_insert_ne.
  - eexists. split; [done|]. split; [apply lookup_insert_eq|].
    intros field Hne. by apply lookup_insert_ne.
Qed.

End SubmissionModalFacts.

(* ===================================================================== *)
(** * Facts about the work protector *)
(* ===================================================================== *)

Module ProtectorFacts.
Import Protector.

(** Claim C4.  Whatever the text of the question and whatever the user
    answers: without protection [safeExecute] asks nothing and calls the
    callback once; with protection it asks once, and calls the callback once
    when the answer is yes and not at all when it is no. *)
Theorem safeExecute_calls_callback (warning : string) (shouldProtect : bool)
    (user : string → bool) :
  invocations user (safeExecute warning shouldProtect) =
    (if shouldProtect then (if user warning then 1 else 0) else 1)%nat ∧
  prompts user (safeExecute warning shouldProtect) =
    (if shouldProtect then [warning] else []) ∧
  ∀ (W : Type) (callback : W → W) (w : W),
    run user callback (safeExecute warning shouldProtect) w =
    if shouldProtect then (if user warning then callback w else w)
    else callback w.
Proof.
  destruct shouldProtect; simpl; [|done].
  destruct (user warning); done.
Qed.

End ProtectorFacts.

(* ===================================================================== *)
(** * Facts about the price display *)
(* ===================================================================== *)

Module DisplayPriceFacts.
Import Js JsFacts App DisplayPrice.

(** ** The text of [toFixed] has no dollar sign *)

Lemma dollarFree_append (a b : string) :
  dollarFree (a +:+ b) = dollarFree a && dollarFree b.
Proof.
  induction a as [|c a IH]; [done|].
  change (String c a +:+ b) with (String c (a +:+ b)).
  simpl. rewrite IH. by rewrite andb_assoc.
Qed.

Lemma dollarFree_substring (s : string) (n m : nat) :
  dollarFree s = true → dollarFree (String.substring n m s) = true.
Proof.
  revert n m. induction s as [|c s IH]; intros n m H.
  - by destruct n, m.
  - simpl in H. apply andb_prop in H as [Hc Hs].
    destruct n as [|n]; simpl.
    + destruct m as [|m]; [done|]. simpl. rewrite Hc. by apply IH.
    + by apply IH.
Qed.

Lemma dollarFree_uint (u : Decimal.uint) :
  dollarFree (NilEmpty.string_of_uint u) = true.
Proof. induction u; simpl; done. Qed.

Lemma dollarFree_decimalDigits (n : Z) : dollarFree (decimalDigits n) = true.
Proof.
  unfold decimalDigits, NilZero.string_of_uint.
  destruct (N.to_uint (Z.to_N n)); try done; apply (dollarFree_uint (_ _)).
Qed.

Lemma dollarFree_padStart3 (fuel : nat) (s : string) :
  dollarFree s = true → dollarFree (padStart3 fuel s) = true.
Proof.
  revert s. induction fuel as [|fuel IH]; intros s H; simpl; [done|].
  destruct (String.length s <? 3)%nat; [|done]. apply IH. done.
Qed.

Lemma dollarFree_insertPoint (digits : string) :
  dollarFree digits = true → dollarFree (insertPoint digits) = true.
Proof.
  intros H. unfold insertPoint.
  pose proof (dollarFree_padStart3 2 digits H) as Hp.
  rewrite !dollarFree_append, !dollarFree_substring by done. done.
Qed.

Lemma dollarFree_toFixed2 (Number_toString : float → string) (x : float) :
  (∀ y, dollarFree (Number_toString y) = true) →
  dollarFree (toFixed2 Number_toString x) = true.
Proof.
  intros HN. unfold toFixed2.
  destruct (Prim2SF x) as [negative|negative| |negative m e]; try done.
  - by destruct negative.
  - rewrite dollarFree_append.
    assert (Hsign : dollarFree (if negative then "-" else "") = true)
      by (by destruct negative).
    rewrite Hsign. simpl.
    destruct (atLeast1e21 m e); [apply HN|].
    apply dollarFree_insertPoint, dollarFree_decimalDigits.
Qed.

(** ** The hook *)

Section Contract.

Context {TransformQuantity : Type}.
Variable getAdjustedQuantityForPrice : float → option TransformQuantity → float.
Variable Number_toString : float → string.
Hypothesis Number_toString_dollarFree :
  ∀ y, dollarFree (Number_toString y) = true.

Local Abbreviation display := (useDisplayPrice getAdjustedQuantityForPrice Number_toString).
Local Abbreviation fixed := (toFixed2 Number_toString).

(** The text for a truthy amount, by the recurring interval. *)
Lemma useDisplayPrice_truthy (price : Price TransformQuantity)
    (submissionQuantity : option float) (amount : float) :
  unit_amount price = Some amount → truthyFloat amount = true →
  let factor :=
    getAdjustedQuantityForPrice (default 1%float submissionQuantity)
      (transform_quantity price) in
  display (Some price) submissionQuantity =
  match recurringInterval price with
  | Some i =>
      if bool_decide (i = "year")
      then "$" +:+ fixed (amount / 100 / 12 * factor)%float +:+ " USD/month"
      else if truthyString i
           then "$" +:+ fixed (amount / 100 * factor)%float +:+ " USD/month"
           else "$" +:+ fixed (amount / 100 * factor)%float
  | None => "$" +:+ fixed (amount / 100 * factor)%float
  end.
Proof.
  intros Ha Ht factor. subst factor. unfold useDisplayPrice.
  rewrite Ha, Ht. cbn [negb].
  destruct (recurringInterval price) as [i|] eqn:Hi.
  - destruct (decide (i = "year")) as [->|Hne].
    + rewrite !bool_decide_eq_true_2 by done. cbn [truthyOptString truthyString].
      change (negb (truthyString "year")) with false. cbn iota.
      rewrite (replace_dollarFree _ _ _ "$" " USD/month")
        by (done || apply dollarFree_toFixed2, Number_toString_dollarFree).
      done.
    + rewrite !bool_decide_eq_false_2 by congruence. cbn [truthyOptString].
      destruct (truthyString i); cbn [negb].
      * rewrite (replace_dollarFree _ _ _ "$" " USD/month")
          by (done || apply dollarFree_toFixed2, Number_toString_dollarFree).
        done.
      * rewrite (replace_dollarFree _ _ _ "$" "")
          by (done || apply dollarFree_toFixed2, Number_toString_dollarFree).
        by rewrite append_empty_r.
  - rewrite bool_decide_eq_false_2 by done. cbn [truthyOptString negb].
    rewrite (replace_dollarFree _ _ _ "$" "")
      by (done || apply dollarFree_toFixed2, Number_toString_dollarFree).
    by rewrite append_empty_r.
Qed.

End Contract.

(** Claim C3.  [useDisplayPrice] is a function to texts.  Without price or
    without amount the text is "Free".  For the amount 1200, no recurring
    interval and no quantity given, it is "$12.00", and with the interval
    "year" it is "$1.00 USD/month" (both where the adjustment factor for the
    quantity 1 is 1).  In general, for a truthy amount the text is "$",
    then [toFixed(2)] of the amount divided by 100, divided by 12 when the
    interval is "year", and multiplied by the adjustment factor, then
    " USD/month" when there is a recurring interval. *)
Theorem useDisplayPrice_contract {TransformQuantity : Type}
    (getAdjustedQuantityForPrice : float → option TransformQuantity → float)
    (Number_toString : float → string) :
  (∀ y, dollarFree (Number_toString y) = true) →
  let display := useDisplayPrice getAdjustedQuantityForPrice Number_toString in
  let fixed := toFixed2 Number_toString in
  (∀ quantity, display None quantity = "Free") ∧
  (∀ price quantity,
     unit_amount price = None → display (Some price) quantity = "Free") ∧
  (∀ price,
     unit_amount price = Some 1200%float → recurring price = None →
     getAdjustedQuantityForPrice 1%float (transform_quantity price) = 1%float →
     display (Some price) None = "$12.00") ∧
  (∀ price,
     unit_amount price = Some 1200%float →
     recurring price = Some {| interval := "year" |} →
     getAdjustedQuantityForPrice 1%float (transform_quantity price) = 1%float →
     display (Some price) None = "$1.00 USD/month") ∧
  (∀ price quantity amount,
     unit_amount price = Some amount → truthyFloat amount = true →
     let factor :=
       getAdjustedQuantityForPrice (default 1%float quantity)
         (transform_quantity price) in
     display (Some price) quantity =
     match recurringInterval price with
     | Some i =>
         if bool_decide (i = "year")
         then "$" +:+ fixed (amount / 100 / 12 * factor)%float +:+ " USD/month"
         else if truthyString i
              then "$" +:+ fixed (amount / 100 * factor)%float +:+ " USD/month"
              else "$" +:+ fixed (amount / 100 * factor)%float
     | None => "$" +:+ fixed (amount / 100 * factor)%float
     end).
Proof.
  intros HN display fixed. subst display fixed.
  split; [done|]. split.
  { intros price quantity Ha. unfold useDisplayPrice. by rewrite Ha. }
  split.
  { intros price Ha Hr Hf.
    rewrite (useDisplayPrice_truthy _ _ HN price None _ Ha eq_refl).
    unfold recurringInterval. rewrite Hr. cbn [fmap option_fmap option_map default from_option id].
    rewrite Hf. vm_compute. reflexivity. }
  split.
  { intros price Ha Hr Hf.
    rewrite (useDisplayPrice_truthy _ _ HN price None _ Ha eq_refl).
    unfold recurringInterval. rewrite Hr. cbn [fmap option_fmap option_map default from_option id].
    rewrite Hf. vm_compute. reflexivity. }
  intros price quantity amount Ha Ht.
  apply (useDisplayPrice_truthy _ _ HN price quantity amount Ha Ht).
Qed.

(** A yearly price of 1200 without quantity transform, where the factor is
    the quantity itself. *)
Lemma useDisplayPrice_contract_witness :
  useDisplayPrice (TransformQuantity := unit) (λ quantity _, quantity) (λ _, "")
    (Some {| unit_amount := Some 1200%float;
             recurring := Some {| interval := "year" |};
             transform_quantity := None |})
    None
  = "$1.00 USD/month".
Proof.
  exact (proj1 (proj2 (proj2 (proj2
           (useDisplayPrice_contract (TransformQuantity := unit)
              (λ quantity _, quantity) (λ _, "") (λ _, eq_refl)))))
           {| unit_amount := Some 1200%float;
              recurring := Some {| interval := "year" |};
              transform_quantity := None |}
           eq_refl eq_refl eq_refl).
Defined.

(** Claim C9.  A price whose amount is zero gives "Free", the text of a
    price without amount, whatever its recurring interval and whatever the
    quantity. *)
Theorem useDisplayPrice_zero_amount {TransformQuantity : Type}
    (getAdjustedQuantityForPrice : float → option TransformQuantity → float)
    (Number_toString : float → string)
    (price : Price TransformQuantity) (quantity : option float) (amount : float) :
  unit_amount price = Some amount →
  PrimFloat.eqb amount 0%float = true →
  let display := useDisplayPrice getAdjustedQuantityForPrice Number_toString in
  display (Some price) quantity = "Free" ∧
  display (Some price) quantity = display None quantity.
Proof.
  intros Ha Hz display. subst display. unfold useDisplayPrice, truthyFloat.
  rewrite Ha, Hz. done.
Qed.

Lemma useDisplayPrice_zero_amount_witness :
  useDisplayPrice (TransformQuantity := unit) (λ quantity _, quantity) (λ _, "")
    (Some {| unit_amount := Some 0%float;
             recurring := Some {| interval := "year" |};
             transform_quantity := None |})
    (Some 25%float)
  = "Free".
Proof.
  exact (proj1 (useDisplayPrice_zero_amount (TransformQuantity := unit)
           (λ quantity _, quantity) (λ _, "")
           {| unit_amount := Some 0%float;
              recurring := Some {| interval := "year" |};
              transform_quantity := None |}
           (Some 25%float) 0%float eq_refl eq_refl)).
Defined.

End DisplayPriceFacts.

(* ===================================================================== *)
(** * Facts about the analysis tab *)
(* ===================================================================== *)

Module AnalysisTabFacts.
Import AnalysisTab.

(** ** The reducer *)

Lemma anyUnsaved_asLoaded (qs : list AnalysisQuestion) :
  anyUnsaved (map asLoaded qs) = false.
Proof.
  induction qs as [|q qs IH]; [done|].
  unfold anyUnsaved in *. simpl. rewrite IH.
  unfold differs. simpl. by rewrite bool_decide_eq_true_2.
Qed.

Lemma anyUnsaved_edit (qs : list AnalysisQuestion) (q : AnalysisQuestion)
    (newResponse : option string) :
  q ∈ qs → lastSaved q ≠ newResponse →
  anyUnsaved (map (edit (uuid q) newResponse) qs) = true.
Proof.
  intros Hin Hne. unfold anyUnsaved. apply existsb_exists.
  exists (edit (uuid q) newResponse q). split.
  - apply in_map, list_elem_of_In. done.
  - unfold edit. rewrite String.eqb_refl. unfold differs. simpl.
    apply negb_true_iff, bool_decide_eq_false_2. congruence.
Qed.

Lemma reducer_recomputes (st : AnalysisQuestionsState)
    (action : AnalysisQuestionsAction) :
  let st' := analysisQuestionsReducer st action in
  hasUnsavedWork st' = anyUnsaved (questions st').
Proof. done. Qed.

(** ** The effect that informs the store *)

Lemma forwarded_written (tab : Tab) : forwarded tab → written tab.
Proof. intros [Hd Hf] d Hd'. congruence. Qed.

Lemma commit_forwarded (tab : Tab) : written tab → forwarded (commit tab).
Proof.
  intros Hw. unfold commit.
  destruct (decide (effectDependency tab = Some (hasUnsavedWork (state tab))))
    as [E|E].
  - rewrite bool_decide_eq_true_2 by done. split; [done|]. by apply Hw.
  - rewrite bool_decide_eq_false_2 by done. done.
Qed.

Lemma commit_state (tab : Tab) : state (commit tab) = state tab.
Proof. unfold commit. by destruct (bool_decide _). Qed.

Lemma mount_forwarded (storeFlag : bool) : forwarded (mount storeFlag).
Proof. apply commit_forwarded. intros d Hd. discriminate Hd. Qed.

Lemma step_forwarded (tab : Tab) (e : Event) :
  forwarded tab → forwarded (step tab e).
Proof.
  intros Hf. apply forwarded_written in Hf.
  destruct e; simpl; apply commit_forwarded; exact Hf.
Qed.

Lemma step_recomputed (tab : Tab) (e : Event) :
  recomputed tab → recomputed (step tab e).
Proof.
  intros Hr. unfold recomputed.
  destruct e; simpl; unfold dispatch, setIsInitialised, setIsErrored;
    rewrite commit_state; simpl; done.
Qed.

Lemma after_invariant (events : list Event) (tab : Tab) :
  recomputed tab → forwarded tab →
  recomputed (after events tab) ∧ forwarded (after events tab).
Proof.
  revert tab. induction events as [|e events IH]; intros tab Hr Hf; [done|].
  simpl. apply IH; [by apply step_recomputed | by apply step_forwarded].
Qed.

(** [setupQuestions] is a history of events. *)
Lemma setupQuestions_events {AdvancedFeatures ApiResponse : Type}
    (getQuestionsFromSchema : AdvancedFeatures → list AnalysisQuestion)
    (applyUpdateResponseToInternalQuestions :
       string → ApiResponse → list AnalysisQuestion → list AnalysisQuestion)
    (advancedFeatures : AdvancedFeatures) (processingUrl : option string)
    (currentQuestionXpath : string) (outcome : FetchOutcome ApiResponse)
    (tab : Tab) :
  ∃ events,
    setupQuestions getQuestionsFromSchema applyUpdateResponseToInternalQuestions
      advancedFeatures processingUrl currentQuestionXpath outcome tab
    = after events tab ∧
    ((Js.truthyOptString processingUrl = false ∨ outcome ≠ Failed) →
     ∃ payload, events = [Dispatched (setQuestions payload); IsInitialisedSet true]).
Proof.
  unfold setupQuestions.
  destruct (Js.truthyOptString processingUrl); [destruct outcome|].
  - exists [Dispatched
              (setQuestions
                 (applyUpdateResponseToInternalQuestions currentQuestionXpath
                    apiResponse (getQuestionsFromSchema advancedFeatures)));
            IsInitialisedSet true].
    split; [reflexivity|]. eauto.
  - exists [IsInitialisedSet true; IsErroredSet true]. split; [reflexivity|].
    intros [?|?]; done.
  - exists [Dispatched (setQuestions (getQuestionsFromSchema advancedFeatures));
            IsInitialisedSet true].
    split; [reflexivity|]. eauto.
Qed.

(** Claim C2.  On the reducer given by the specification:
    [hasUnsavedWork] is false after [setQuestions] and after the mark-saved
    action, and true after an edit that gives a question a response other
    than its last saved one.  In every state the tab reaches from its mount
    (by dispatched actions and by [setupQuestions], whose successful end
    leaves [hasUnsavedWork] false), [hasUnsavedWork] tells whether some
    response differs from its last saved value, and the flag of
    [singleProcessingStore] has been set to it. *)
Theorem hasUnsavedWork_reflects_unsaved_responses :
  (∀ st payload,
     hasUnsavedWork (analysisQuestionsReducer st (setQuestions payload)) = false) ∧
  (∀ st, hasUnsavedWork (analysisQuestionsReducer st markSaved) = false) ∧
  (∀ st q newResponse,
     q ∈ questions st → lastSaved q ≠ newResponse →
     hasUnsavedWork
       (analysisQuestionsReducer st (updateResponse (uuid q) newResponse)) = true) ∧
  (∀ storeFlag events,
     let tab := after events (mount storeFlag) in
     hasUnsavedWork (state tab) = anyUnsaved (questions (state tab)) ∧
     analysisTabHasUnsavedChanges tab = hasUnsavedWork (state tab)) ∧
  (∀ (AdvancedFeatures ApiResponse : Type)
     (getQuestionsFromSchema : AdvancedFeatures → list AnalysisQuestion)
     (applyUpdateResponseToInternalQuestions :
        string → ApiResponse → list AnalysisQuestion → list AnalysisQuestion)
     advancedFeatures processingUrl currentQuestionXpath outcome storeFlag events,
     let tab :=
       setupQuestions getQuestionsFromSchema applyUpdateResponseToInternalQuestions
         advancedFeatures processingUrl currentQuestionXpath outcome
         (after events (mount storeFlag)) in
     hasUnsavedWork (state tab) = anyUnsaved (questions (state tab)) ∧
     analysisTabHasUnsavedChanges tab = hasUnsavedWork (state tab) ∧
     ((Js.truthyOptString processingUrl = false ∨ outcome ≠ Failed) →
      hasUnsavedWork (state tab) = false ∧ isInitialised tab = true)).
Proof.
  split; [intros; apply anyUnsaved_asLoaded|].
  split; [intros; apply anyUnsaved_asLoaded|].
  split; [intros st q v Hin Hne; by apply anyUnsaved_edit|].
  assert (Hreach : ∀ storeFlag events,
            recomputed (after events (mount storeFlag)) ∧
            forwarded (after events (mount storeFlag))).
  { intros storeFlag events.
    apply after_invariant; [done | apply mount_forwarded]. }
  split.
  { intros storeFlag events tab. subst tab.
    destruct (Hreach storeFlag events) as [Hr [_ Hf]]. done. }
  intros AF AR gq ap af url xpath outcome storeFlag events tab. subst tab.
  destruct (Hreach storeFlag events) as [Hr Hf].
  destruct (setupQuestions_events gq ap af url xpath outcome
              (after events (mount storeFlag))) as (evs & -> & Hok).
  destruct (after_invariant evs _ Hr Hf) as [Hr' [_ Hf']].
  split; [done|]. split; [done|].
  intros Hsuccess. destruct (Hok Hsuccess) as [payload ->].
  simpl. unfold setIsInitialised, dispatch.
  rewrite !commit_state. simpl. split; [apply anyUnsaved_asLoaded|].
  unfold commit. by destruct (bool_decide _).
Qed.

(** One question loaded with the response "a": editing it to "b" raises
    the flag, in the reducer and in the store. *)
Lemma hasUnsavedWork_reflects_unsaved_responses_witness :
  let q := {| uuid := "q1"; response := Some "a"; lastSaved := Some "a" |} in
  let tab := after [Dispatched (setQuestions [q]);
                    Dispatched (updateResponse "q1" (Some "b"))] (mount false) in
  hasUnsavedWork (state tab) = true ∧ analysisTabHasUnsavedChanges tab = true.
Proof.
  intros q tab.
  assert (Hin : q ∈ questions (state (after [Dispatched (setQuestions [q])] (mount false))))
    by (vm_compute; set_solver).
  assert (Hne : lastSaved q ≠ Some "b") by discriminate.
  pose proof (proj1 (proj2 (proj2 hasUnsavedWork_reflects_unsaved_responses))
                (state (after [Dispatched (setQuestions [q])] (mount false)))
                q (Some "b") Hin Hne) as Hedit.
  split; [exact Hedit|].
  exact (eq_trans
           (proj2 (proj1 (proj2 (proj2 (proj2 hasUnsavedWork_reflects_unsaved_responses)))
                    false [Dispatched (setQuestions [q]);
                           Dispatched (updateResponse "q1" (Some "b"))]))
           Hedit).
Defined.

End AnalysisTabFacts.

(* ===================================================================== *)
(** * More facts about the submission modal *)
(* ===================================================================== *)

Module SubmissionModalBehaviour.
Import Js JsFacts App SubmissionModal SubmissionModalFacts.

(** ** Previous and next for every input *)

Lemma index_elem_of {A : Type} (arr : list A) (i : Z) (x : A) :
  index arr i = Some x → x ∈ arr.
Proof.
  unfold index. destruct (i <? 0); [done|].
  intros H. apply list_elem_of_lookup. eauto.
Qed.

(** X1.  Whatever the list, the page information and [sid]: each of the two
    values of the [done] callback is [-1], [-2] or an identifier of the
    loaded list; and without page information neither is made [-2]. *)
Theorem siblings_range (ids : list Z) (ti : TableInfo) (sid : string) :
  let '(prev, next) := siblings ids ti sid in
  (prev = -1 ∨ prev = -2 ∨ prev ∈ ids) ∧
  (next = -1 ∨ next = -2 ∨ next ∈ ids) ∧
  (∀ b, ti = TableInfoBoolean b →
        (prev = -1 ∨ prev ∈ ids) ∧ (next = -1 ∨ next ∈ ids)).
Proof.
  unfold siblings. destruct (truthyString sid).
  2: { split; [by left|]. split; [by left|]. intros b _. split; by left. }
  set (c := findIndex _ ids).
  assert (Hp : ∀ i, let v := if truthyNumber (index ids i)
                             then default (-1) (index ids i) else -1 in
                    v = -1 ∨ v ∈ ids).
  { intros i. destruct (index ids i) as [a|] eqn:Ha; simpl; [|by left].
    destruct (negb (a =? 0)); [|by left]. right. by eapply index_elem_of. }
  pose proof (Hp (c - 1)) as H1. pose proof (Hp (c + 1)) as H2.
  simpl in H1, H2.
  destruct ti as [b|page]; cbn [tableInfoOrFalse].
  - split; [tauto|]. split; [tauto|]. intros _ _. done.
  - split; [|split; [|intros b Hb; discriminate Hb]].
    + destruct (_ && _); [by right; left | tauto].
    + destruct (_ && _); [by right; left | tauto].
Qed.

(** With distinct identifiers, an identifier has one place. *)
Lemma position_NoDup (ids : list Z) (i : nat) (x : Z) :
  NoDup ids → ids !! i = Some x → position ids x = Some i.
Proof.
  intros Hnd Hi. unfold position.
  assert (Hf : list_find (λ k, k = x) ids = Some (i, x)).
  { apply list_find_Some. split; [done|]. split; [done|].
    intros j y Hj Hlt ->.
    pose proof (NoDup_lookup _ _ _ _ Hnd Hi Hj). lia. }
  by rewrite Hf.
Qed.

(** X2.  In a list of distinct positive identifiers "next" and "previous"
    undo each other: when the modal of identifier [a] has the identifier [b]
    as next, the modal of [b] has [a] as previous, and the other way round,
    whatever page information either modal is given. *)
Theorem siblings_next_previous_inverse (ids : list Z) (ti ti' : TableInfo)
    (sa sb : string) (a b : Z) :
  NoDup ids → Forall (λ k, 0 < k) ids →
  parseInt sa = Some a → parseInt sb = Some b → a ∈ ids → 0 < b →
  ((siblings ids ti sa).2 = b → (siblings ids ti' sb).1 = a) ∧
  ((siblings ids ti sa).1 = b → (siblings ids ti' sb).2 = a).
Proof.
  intros Hnd Hpos Ha Hb Hin Hb0.
  rewrite (siblings_in_list _ _ _ _ Ha Hin Hpos). simpl.
  destruct (position_Some _ _ Hin) as (i & Hi & Hcur).
  unfold spec_next, spec_previous, adjacentNext, adjacentPrevious.
  rewrite Hi. split.
  - destruct (ids !! S i) as [x|] eqn:Hx.
    2: { destruct (_ && _); lia. }
    intros ->.
    assert (Hinb : b ∈ ids) by (apply list_elem_of_lookup; eauto).
    rewrite (siblings_in_list _ _ _ _ Hb Hinb Hpos). simpl.
    unfold spec_previous, adjacentPrevious.
    rewrite (position_NoDup _ _ _ Hnd Hx). by rewrite Hcur.
  - destruct i as [|j].
    { destruct (previousPageAvailable ti); lia. }
    destruct (ids !! j) as [x|] eqn:Hx.
    2: { destruct (previousPageAvailable ti); lia. }
    intros ->.
    assert (Hinb : b ∈ ids) by (apply list_elem_of_lookup; eauto).
    rewrite (siblings_in_list _ _ _ _ Hb Hinb Hpos). simpl.
    unfold spec_next, adjacentNext.
    rewrite (position_NoDup _ _ _ Hnd Hx). by rewrite Hcur.
Qed.

Lemma siblings_next_previous_inverse_witness :
  (siblings [10; 20; 30] (examplePage 9 3 1) "20").2 = 30 ∧
  (siblings [10; 20; 30] (TableInfoBoolean false) "30").1 = 20.
Proof.
  assert (Hnd : NoDup [10; 20; 30]) by compute_done.
  assert (Hpos : Forall (λ k, 0 < k) [10; 20; 30]) by (repeat constructor).
  assert (Hin : 20 ∈ [10; 20; 30]) by set_solver.
  assert (H30 : 0 < 30) by lia.
  split; [reflexivity|].
  exact (proj1 (siblings_next_previous_inverse [10; 20; 30] (examplePage 9 3 1)
                  (TableInfoBoolean false) "20" "30" 20 30
                  Hnd Hpos eq_refl eq_refl Hin H30) eq_refl).
Defined.

(** X3.  After a successful fetch, a "Next" (or "Previous") button that is
    not disabled either asks the page store for the other table page or
    hands it an identifier of the loaded list, together with that list. *)
Theorem enabled_button_stays_in_list (props : SubmissionModalProps)
    (sid : string) (data : SubmissionResponse) (s : SubmissionModalState) :
  let s' := (getSubmission_done props sid data s).1 in
  ((next s' =? -1) = false →
   (onClickNext props s').2 = [pageState_showModal (SubmissionPageParams page_next)] ∨
   ∃ target, target ∈ Props.ids props ∧
     (onClickNext props s').2 =
       [pageState_showModal
          (SubmissionParams target (Props.asset props) (Props.ids props)
             (tableInfoOrFalse (Props.tableInfo props)))]) ∧
  ((previous s' =? -1) = false →
   (onClickPrevious props s').2 = [pageState_showModal (SubmissionPageParams page_prev)] ∨
   ∃ target, target ∈ Props.ids props ∧
     (onClickPrevious props s').2 =
       [pageState_showModal
          (SubmissionParams target (Props.asset props) (Props.ids props)
             (tableInfoOrFalse (Props.tableInfo props)))]).
Proof.
  intros s'. subst s'. unfold getSubmission_done.
  pose proof (siblings_range (Props.ids props) (Props.tableInfo props) sid) as Hr.
  destruct (siblings _ _ _) as [prev nxt]. destruct Hr as (Hp & Hn & _).
  unfold onClickNext, onClickPrevious. simpl. split.
  - intros Hen. destruct (nxt =? -2) eqn:E2; [by left|]. right.
    exists nxt. split; [|done].
    apply Z.eqb_neq in Hen, E2. destruct Hn as [?|[?|?]]; done.
  - intros Hen. destruct (prev =? -2) eqn:E2; [by left|]. right.
    exists prev. split; [|done].
    apply Z.eqb_neq in Hen, E2. destruct Hp as [?|[?|?]]; done.
Qed.

Lemma enabled_button_stays_in_list_witness :
  let props := exampleProps "20" [10; 20; 30] (examplePage 9 3 1) in
  let s' := (getSubmission_done props "20" ∅ (constructor props)).1 in
  (onClickNext props s').2 =
    [pageState_showModal (SubmissionPageParams page_next)] ∨
  ∃ target, target ∈ [10; 20; 30] ∧
    (onClickNext props s').2 =
      [pageState_showModal
         (SubmissionParams target exampleAsset [10; 20; 30] (examplePage 9 3 1))].
Proof.
  exact (proj1 (enabled_button_stays_in_list
                  (exampleProps "20" [10; 20; 30] (examplePage 9 3 1)) "20" ∅
                  (constructor (exampleProps "20" [10; 20; 30] (examplePage 9 3 1))))
           eq_refl).
Defined.

(** X4.  Answers are applied as they arrive, without regard to the [sid]
    the modal is on: the state after two successful answers is the state
    after the later one alone, so a late answer to an earlier request
    replaces the record and the two targets, while [state.sid] stays. *)
Theorem last_answer_wins (props1 props2 : SubmissionModalProps)
    (sid1 sid2 : string) (data1 data2 : SubmissionResponse)
    (s : SubmissionModalState) :
  let s1 := (getSubmission_done props1 sid1 data1 s).1 in
  let s2 := (getSubmission_done props2 sid2 data2 s1).1 in
  s2 = (getSubmission_done props2 sid2 data2 s).1 ∧
  submission s2 = Some data2 ∧
  (previous s2, next s2) = siblings (Props.ids props2) (Props.tableInfo props2) sid2 ∧
  sid s2 = sid s.
Proof.
  intros s1 s2. subst s1 s2. unfold getSubmission_done.
  destruct (siblings (Props.ids props1) _ _) as [p1 n1].
  destruct (siblings (Props.ids props2) _ _) as [p2 n2].
  done.
Qed.



(** ** Histories of events *)

Section Histories.

Variable markAttachmentAsDeleted : SubmissionResponse → string → SubmissionResponse.
Variable no_status : string.

Local Abbreviation step := (SubmissionModal.step markAttachmentAsDeleted no_status).
Local Abbreviation run := (SubmissionModal.run markAttachmentAsDeleted no_status).

Lemma run_app (m : Mounted) (events1 events2 : list Event) :
  run m (events1 ++ events2) =
  let '(m1, calls1) := run m events1 in
  let '(m2, calls2) := run m1 events2 in
  (m2, (calls1 ++ calls2)%list).
Proof.
  revert m. induction events1 as [|e events1 IH]; intros m; simpl.
  - by destruct (run m events2).
  - destruct (step m e) as [m1 calls1]. rewrite IH.
    destruct (run m1 events1) as [m2 calls2].
    destruct (run m2 events2) as [m3 calls3]. by rewrite app_assoc.
Qed.

Lemma run_cons_1 (m : Mounted) (e : Event) (events : list Event) :
  (run m (e :: events)).1 = (run (step m e).1 events).1.
Proof. simpl. destruct (step m e). by destruct (run _ events). Qed.

(** What every permitted event keeps holds after a history of them. *)
Lemma run_invariant (P : Mounted → Prop) (permitted : Event → Prop) :
  (∀ m e, permitted e → P m → P (step m e).1) →
  ∀ events m, Forall permitted events → P m → P (run m events).1.
Proof.
  intros Hstep events. induction events as [|e events IH]; intros m Hev HP.
  - done.
  - apply Forall_cons in Hev as [He Hev]. simpl.
    specialize (Hstep m e He HP). destruct (step m e) as [m1 calls1].
    specialize (IH m1 Hev Hstep). by destruct (run m1 events).
Qed.

(** What holds of the calls of every permitted event holds of all calls. *)
Lemma run_calls (Q : Outcall → Prop) (permitted : Event → Prop) :
  (∀ m e, permitted e → Forall Q (step m e).2) →
  ∀ events m, Forall permitted events → Forall Q (run m events).2.
Proof.
  intros Hstep events. induction events as [|e events IH]; intros m Hev.
  - constructor.
  - apply Forall_cons in Hev as [He Hev]. simpl.
    specialize (Hstep m e He). destruct (step m e) as [m1 calls1].
    specialize (IH m1 Hev). destruct (run m1 events).
    apply Forall_app. done.
Qed.

(** The cases of one event. *)
Ltac handlers :=
  unfold SubmissionModal.step, method, lift, propsAfter,
    refreshSubmissionValidationStatus, onDeletedSubmissionCompleted,
    getSubmission_done, getSubmission_fail, componentDidUpdate,
    getDerivedStateFromProps, launchEditSubmission, launchEditSubmission_settled,
    launchViewSubmission, launchViewSubmission_settled, duplicateSubmission,
    deleteSubmission, deleteSubmission_onok, deleteSubmission_oncancel,
    triggerRefresh, onClickPrevious, onClickNext, switchSubmission,
    switchSubmissionFromOtherTablePage, onShowXMLNamesChange, onValidationSelect,
    onValidationStatusChange, onLanguageChange, handleDeletedAttachment,
    getSubmission, andThen, setState, call, skip.

Ltac branches :=
  repeat match goal with
    | |- context [siblings ?a ?b ?c] => destruct (siblings a b c)
    | |- context [match submission ?s with _ => _ end] => destruct (submission s)
    | |- context [if ?b then _ else _] => destruct b
    | |- context [match ?o with Some _ => _ | None => _ end] => destruct o
    end.

Ltac by_cases e := destruct e; handlers; simpl; branches; simpl; try done.

(** X5.  The stored error message is never taken back: from a failed fetch
    on, whatever happens to the modal (a refresh and a successful answer
    included), it shows the spinner or an error message and never a
    record. *)
Theorem error_is_never_cleared (m : Mounted) (sid : string)
    (error : FailResponse) (events : list Event) :
  let m' := (run m (GetSubmissionFail sid error :: events)).1 in
  submissionDataFetchError (state m') ≠ NoError ∧
  ∀ record, render (state m') ≠ Displaying record.
Proof.
  intros m'. subst m'.
  assert (Hkeep : submissionDataFetchError
                    (state (run m (GetSubmissionFail sid error :: events)).1) ≠ NoError).
  { simpl. destruct (step m (GetSubmissionFail sid error)) as [m1 calls1] eqn:E1.
    assert (H1 : submissionDataFetchError (state m1) ≠ NoError).
    { replace m1 with (step m (GetSubmissionFail sid error)).1 by (by rewrite E1).
      destruct m as [p s]. handlers. simpl. branches; done. }
    pose proof (run_invariant
                  (λ m, submissionDataFetchError (state m) ≠ NoError) (λ _, True)) as Hinv.
    specialize (Hinv ltac:(intros [p s] e _; simpl; by_cases e) events m1
                  ltac:(by apply Forall_true) H1).
    by destruct (run m1 events). }
  split; [done|]. intros record. unfold render.
  destruct (isFetchingSubmissionData _); [done|].
  destruct (submissionDataFetchError _); done.
Qed.

(** X6.  The spinner goes only with an answer: from the mount on, as long
    as neither callback of the request has run, the modal shows the spinner,
    whatever else happens. *)
Theorem spinner_until_answer (p : SubmissionModalProps) (events : list Event) :
  Forall (λ e, isAnswer e = false) events →
  render (state (run (mount p).1 events).1) = Fetching.
Proof.
  intros Hev.
  pose proof (run_invariant (λ m, isFetchingSubmissionData (state m) = true)
                (λ e, isAnswer e = false)) as Hinv.
  specialize (Hinv ltac:(intros [q s] e He; simpl; by_cases e) events (mount p).1
                Hev eq_refl).
  unfold render. by rewrite Hinv.
Qed.

(** X7.  [state.sid] follows the props: in every state the modal reaches
    from its mount it is the [sid] of the present props, and every call
    that names a submission names the asset and the [sid] of the present
    props. *)
Theorem calls_name_the_present_submission (p : SubmissionModalProps)
    (events : list Event) (e : Event) :
  let m := (run (mount p).1 events).1 in
  sid (state m) = Props.sid (props m) ∧
  ∀ c assetUid s,
    c ∈ (step m e).2 → namesSubmission c = Some (assetUid, s) →
    assetUid = uid (Props.asset (props (step m e).1)) ∧
    s = Props.sid (props (step m e).1).
Proof.
  intros m. subst m.
  pose proof (run_invariant (λ m, sid (state m) = Props.sid (props m))
                (λ _, True)) as Hinv.
  assert (Hstep : ∀ (m : Mounted) (e : Event), True →
            sid (state m) = Props.sid (props m) →
            sid (state (step m e).1) = Props.sid (props (step m e).1)).
  { intros [q s] e' _ H. simpl in H.
    destruct e'; try (handlers; simpl; branches; simpl; done).
    handlers. simpl.
    destruct (String.eqb_spec (sid s) (Props.sid newProps)) as [E|E]; simpl;
      by destruct (negb (String.eqb (Props.sid q) (Props.sid newProps))). }
  specialize (Hinv Hstep events (mount p).1 ltac:(by apply Forall_true) eq_refl).
  split; [done|].
  destruct (run (mount p).1 events).1 as [q s]. simpl in Hinv.
  intros c assetUid s0. destruct e; handlers; simpl; branches; simpl;
    intros Hc Hn; set_unfold; destruct_or?; destruct_and?; subst; simpl in *;
    try done; simplify_eq; try done.
Qed.

(** X19.  Props with the [sid] the modal already has cause no reload: the
    state stays as it is and no call is made, also when the list of
    identifiers or the page information of the new props differ, so
    [previous] and [next] stay those computed for the old list. *)
Theorem same_sid_props_no_reload (p : SubmissionModalProps) (events : list Event)
    (newProps : SubmissionModalProps) :
  let m := (run (mount p).1 events).1 in
  Props.sid newProps = Props.sid (props m) →
  step m (PropsReceived newProps) = ({| props := newProps; state := state m |}, []).
Proof.
  intros m Hsid.
  destruct (calls_name_the_present_submission p events (PropsReceived newProps))
    as [Hinv _]. fold m in Hinv.
  destruct m as [q s]. simpl in *. handlers. simpl.
  by rewrite Hinv, Hsid, String.eqb_refl.
Qed.

Variable userCan : string → AssetResponse → bool.
Variable userHasPermForSubmission :
  string → AssetResponse → SubmissionResponse → bool.

Local Abbreviation editable := (isSubmissionEditable userCan userHasPermForSubmission).
Local Abbreviation actionsOf := (renderSubmissionActions userCan userHasPermForSubmission).
Local Abbreviation subheaderOf :=
  (renderDuplicatedSubmissionSubheader userCan userHasPermForSubmission).

(** X8.  While Enketo is being opened for editing, nothing can be edited,
    duplicated or discarded: from the click on "Edit" until the promise of
    [enketoHandler.openSubmission] is settled, whatever else happens, the
    submission is not editable, whatever the permissions, and the "Edit" and
    "Duplicate" buttons are disabled. *)
Theorem not_editable_while_enketo_opens (m : Mounted) (events : list Event) :
  Forall (λ e, e ≠ EditSettled) events →
  let m' := (run m (EditClicked :: events)).1 in
  editable (props m') (state m') = false ∧
  (∀ a, actionsOf (props m') (state m') = Some a →
        editDisabled a = true ∧ duplicateDisabled a = true ∧ editPending a = true) ∧
  (∀ h, subheaderOf (props m') (state m') = Some h →
        subheaderEditDisabled h = true ∧ discardDisabled h = true).
Proof.
  intros Hev m'. subst m'. rewrite run_cons_1.
  assert (H1 : isEnketoEditLoading (state (step m EditClicked).1) = true)
    by (by destruct m).
  pose proof (run_invariant (λ m, isEnketoEditLoading (state m) = true)
                (λ e, e ≠ EditSettled)) as Hinv.
  specialize (Hinv ltac:(intros [q s] e He; simpl; by_cases e) events _ Hev H1).
  destruct (run _ events) as [[q s] calls]. simpl in Hinv |- *.
  assert (Hed : editable q s = false).
  { unfold isSubmissionEditable. rewrite Hinv.
    destruct (submission s); [|done]. by rewrite andb_false_r. }
  split; [done|]. split.
  - intros a. unfold renderSubmissionActions. rewrite Hed, Hinv.
    destruct (submission s); [|done].
    destruct (_ && _); [done|]. by intros [= <-].
  - intros h. unfold renderDuplicatedSubmissionSubheader. rewrite Hed.
    destruct (submission s); [|done].
    destruct (_ || _); [done|]. by intros [= <-].
Qed.

(** X9.  The validation select is pending from a choice until the
    [completed] callback runs, and only that callback ends it: no other
    event lowers [isValidationStatusChangePending]. *)
Theorem validation_pending_until_completed (m : Mounted)
    (newSelectedOption : option string) (events : list Event) (result : JsValue) :
  Forall (λ e, isValidationStatusCompleted e = false) events →
  let m' := (run m (ValidationSelected newSelectedOption :: events)).1 in
  isValidationStatusChangePending (state m') = true ∧
  isValidationStatusChangePending
    (state (step m' (ValidationStatusCompleted result)).1) = false.
Proof.
  intros Hev m'. subst m'. rewrite run_cons_1.
  assert (H1 : isValidationStatusChangePending
                 (state (step m (ValidationSelected newSelectedOption)).1) = true).
  { destruct m as [q s]. handlers. by destruct newSelectedOption. }
  pose proof (run_invariant (λ m, isValidationStatusChangePending (state m) = true)
                (λ e, isValidationStatusCompleted e = false)) as Hinv.
  specialize (Hinv ltac:(intros [q s] e He; simpl; by_cases e) events _ Hev H1).
  destruct (run _ events) as [[q s] calls]. simpl in Hinv |- *.
  split; [done|]. handlers. simpl. by destruct (submission s).
Qed.

(** X10.  The refresh warning is shown from a click on "Edit" until
    "Refresh submission" is clicked, and from that click it stays away
    until "Edit" is clicked again. *)
Theorem refresh_warning_between_edit_and_refresh (m : Mounted)
    (events : list Event) :
  (Forall (λ e, e ≠ RefreshClicked) events →
   renderRefreshWarning (state (run m (EditClicked :: events)).1) = true) ∧
  (Forall (λ e, e ≠ EditClicked) events →
   renderRefreshWarning (state (run m (RefreshClicked :: events)).1) = false).
Proof.
  unfold renderRefreshWarning. split; intros Hev; rewrite run_cons_1.
  - assert (H1 : isRefreshNeeded (state (step m EditClicked).1) = true)
      by (by destruct m).
    pose proof (run_invariant (λ m, isRefreshNeeded (state m) = true)
                  (λ e, e ≠ RefreshClicked)) as Hinv.
    exact (Hinv ltac:(intros [q s] e He; simpl; by_cases e) events _ Hev H1).
  - assert (H1 : isRefreshNeeded (state (step m RefreshClicked).1) = false)
      by (by destruct m).
    pose proof (run_invariant (λ m, isRefreshNeeded (state m) = false)
                  (λ e, e ≠ EditClicked)) as Hinv.
    exact (Hinv ltac:(intros [q s] e He; simpl; by_cases e) events _ Hev H1).
Qed.

(** X11.  A submission is deleted only on confirmation: in a history
    without the [onok] callback of the dialog no call of
    [actions.resources.deleteSubmission] is made; the callback makes the
    call for the asset and the [sid] of the props, and cancelling only
    destroys the dialog. *)
Theorem delete_only_when_confirmed (m : Mounted) (events : list Event) :
  (Forall (λ e, e ≠ DeleteConfirmed) events →
   Forall (λ c, isDeleteCall c = false) (run m events).2) ∧
  (step m DeleteConfirmed).2 =
    [actions_deleteSubmission (uid (Props.asset (props m))) (Props.sid (props m))] ∧
  step m DeleteCancelled = (m, [dialog_destroy]).
Proof.
  split; [|split; by destruct m].
  intros Hev. revert m Hev.
  apply (run_calls (λ c, isDeleteCall c = false) (λ e, e ≠ DeleteConfirmed)).
  intros [q s] e He. by_cases e; repeat constructor.
Qed.


End Histories.

(** The histories of the examples are run with an attachment marker that
    leaves the record as it is, the constant ["no_status"], and a user who
    may do everything on the asset. *)
Lemma spinner_until_answer_witness :
  render (state (exampleRun (mount (exampleProps "20" [10; 20; 30] (examplePage 9 3 1))).1
                   [EditClicked; NextClicked; LanguageSelected None]).1) = Fetching.
Proof.
  apply (spinner_until_answer exampleMarker "no_status"). repeat constructor.
Defined.


Lemma not_editable_while_enketo_opens_witness :
  let p := exampleProps "20" [10; 20; 30] (examplePage 9 3 1) in
  let m' := (exampleRun (mount p).1
               [EditClicked; GetSubmissionDone "20" ∅; ViewClicked; ViewSettled]).1 in
  isSubmissionEditable exampleUserCan exampleUserHasPerm (props m') (state m') = false.
Proof.
  intros p m'.
  assert (Hev : Forall (λ e, e ≠ EditSettled)
                  [GetSubmissionDone "20" ∅; ViewClicked; ViewSettled])
    by (repeat constructor; discriminate).
  exact (proj1 (not_editable_while_enketo_opens exampleMarker "no_status" exampleUserCan exampleUserHasPerm (mount p).1 _ Hev)).
Defined.


Lemma validation_pending_until_completed_witness :
  let p := exampleProps "20" [10; 20; 30] (examplePage 9 3 1) in
  let m' := (exampleRun (mount p).1
               [ValidationSelected (Some "validation_status_approved");
                GetSubmissionDone "20" ∅; ShowXMLNamesChanged true]).1 in
  isValidationStatusChangePending (state m') = true.
Proof.
  intros p m'.
  assert (Hev : Forall (λ e, isValidationStatusCompleted e = false)
                  [GetSubmissionDone "20" ∅; ShowXMLNamesChanged true])
    by (repeat constructor).
  exact (proj1 (validation_pending_until_completed exampleMarker "no_status" (mount p).1 _ _ JsNull Hev)).
Defined.


Lemma refresh_warning_between_edit_and_refresh_witness :
  let p := exampleProps "20" [10; 20; 30] (examplePage 9 3 1) in
  renderRefreshWarning
    (state (exampleRun (mount p).1 [EditClicked; EditSettled; GetSubmissionDone "20" ∅]).1)
  = true.
Proof.
  intros p.
  assert (Hev : Forall (λ e, e ≠ RefreshClicked)
                  [EditSettled; GetSubmissionDone "20" ∅])
    by (repeat constructor; discriminate).
  exact (proj1 (refresh_warning_between_edit_and_refresh exampleMarker "no_status" (mount p).1 _) Hev).
Defined.


Lemma delete_only_when_confirmed_witness :
  let p := exampleProps "20" [10; 20; 30] (examplePage 9 3 1) in
  Forall (λ c, isDeleteCall c = false)
    (exampleRun (mount p).1 [GetSubmissionDone "20" ∅; DeleteClicked; DeleteCancelled]).2.
Proof.
  intros p.
  assert (Hev : Forall (λ e, e ≠ DeleteConfirmed)
                  [GetSubmissionDone "20" ∅; DeleteClicked; DeleteCancelled])
    by (repeat constructor; discriminate).
  exact (proj1 (delete_only_when_confirmed exampleMarker "no_status" (mount p).1 _) Hev).
Defined.


Lemma same_sid_props_no_reload_witness :
  let p := exampleProps "20" [10; 20; 30] (examplePage 9 3 1) in
  let newProps := exampleProps "20" [20; 30; 40] (examplePage 9 3 1) in
  let m := (exampleRun (mount p).1 [GetSubmissionDone "20" ∅]).1 in
  (step exampleMarker "no_status" m (PropsReceived newProps)).1 =
    {| props := newProps; state := state m |} ∧
  previous (state m) = 10.
Proof.
  intros p newProps m. split; [|reflexivity].
  exact (f_equal fst
           (same_sid_props_no_reload exampleMarker "no_status" p
              [GetSubmissionDone "20" ∅] newProps eq_refl)).
Defined.

(** ** The selects *)

(** X13.  After the [completed] callback of a validation status change,
    on a loaded submission, the validation select shows the [uid] of the
    result when the result has a truthy one and nothing when not; reading
    it does not throw, whatever the record held before. *)
Theorem validation_select_after_completed (result : JsValue)
    (s : SubmissionModalState) (current : SubmissionResponse) :
  submission s = Some current →
  ∃ updated,
    submission (refreshSubmissionValidationStatus result s).1 = Some updated ∧
    selectedOption updated =
      Returned (if truthy (getProp result "uid")
                then default JsNull (getProp result "uid") else JsNull).
Proof.
  intros Hs. unfold refreshSubmissionValidationStatus, andThen, setState, skip,
    clonedeep. simpl. rewrite Hs. simpl.
  eexists. split; [reflexivity|]. unfold selectedOption.
  destruct result as [|b|n|str|items|fields]; simpl;
    try (by rewrite ?andb_false_r, lookup_insert_eq);
    try (by destruct b; rewrite lookup_insert_eq);
    try (by destruct (negb _); rewrite lookup_insert_eq).
  destruct (truthy (assoc "uid" fields)); by rewrite lookup_insert_eq.
Qed.

Lemma validation_select_after_completed_witness :
  ∃ updated,
    submission
      (refreshSubmissionValidationStatus
         (JsObj [("uid", JsStr "validation_status_approved")])
         (getSubmission_done (exampleProps "20" [10; 20; 30] (examplePage 9 3 1))
            "20" ∅
            (constructor (exampleProps "20" [10; 20; 30] (examplePage 9 3 1)))).1).1
    = Some updated ∧
    selectedOption updated = Returned (JsStr "validation_status_approved").
Proof.
  exact (validation_select_after_completed
           (JsObj [("uid", JsStr "validation_status_approved")])
           (getSubmission_done (exampleProps "20" [10; 20; 30] (examplePage 9 3 1))
              "20" ∅
              (constructor (exampleProps "20" [10; 20; 30] (examplePage 9 3 1)))).1
           ∅ eq_refl).
Defined.







(** X18.  The message stored by a failed fetch is never empty, and once the
    flag is lowered it is this message that the modal shows. *)
Theorem getSubmission_fail_shows_message (sid : string) (error : FailResponse)
    (s : SubmissionModalState) :
  ∃ c rest,
    submissionDataFetchError (getSubmission_fail sid error s).1 =
      ErrorMessage (String c rest) ∧
    render (getSubmission_fail sid error s).1 = Errored (String c rest).
Proof.
  unfold getSubmission_fail, render.
  destruct (responseText error) as [[|c body]|].
  - simpl. destruct (statusText error) as [[|c status]|]; simpl;
      (eexists _, _; split; reflexivity).
  - change (truthyOptString (Some (String c body))) with true. cbn iota.
    change (default "" (Some (String c body))) with (String c body).
    destruct (String.eqb (String c body) DETAIL_NOT_FOUND).
    + unfold replace. rewrite splitFirst_notFoundTemplate.
      eexists _, _; split; reflexivity.
    + eexists _, _; split; reflexivity.
  - simpl. destruct (statusText error) as [[|c status]|]; simpl;
      (eexists _, _; split; reflexivity).
Qed.

End SubmissionModalBehaviour.

(* ===================================================================== *)
(** * More facts about the price display and the analysis tab *)
(* ===================================================================== *)

Module DisplayPriceBehaviour.
Import Js JsFacts App DisplayPrice DisplayPriceFacts.

(** X16.  [useDisplayPrice] gives "Free" exactly when there is nothing to
    charge: no price, no amount, or an amount that is [0], [-0] or [NaN];
    every other price gives a text that starts with the dollar sign. *)
Theorem useDisplayPrice_free_iff {TransformQuantity : Type}
    (getAdjustedQuantityForPrice : float → option TransformQuantity → float)
    (Number_toString : float → string)
    (price : option (Price TransformQuantity)) (quantity : option float) :
  (∀ y, dollarFree (Number_toString y) = true) →
  let text := useDisplayPrice getAdjustedQuantityForPrice Number_toString price quantity in
  let charged :=
    match price ≫= unit_amount with
    | Some amount => truthyFloat amount
    | None => false
    end in
  (text = "Free" ↔ charged = false) ∧
  (charged = true → ∃ rest, text = String "$" rest).
Proof.
  intros HN text charged. subst text charged.
  destruct price as [price|]; [|done].
  change (Some price ≫= unit_amount) with (unit_amount price).
  destruct (unit_amount price) as [amount|] eqn:Ha.
  2: { unfold useDisplayPrice. by rewrite Ha. }
  destruct (truthyFloat amount) eqn:Ht.
  - rewrite (useDisplayPrice_truthy _ _ HN price quantity _ Ha Ht).
    assert (Hd : ∀ x, "$" +:+ x = String "$" x) by done.
    destruct (recurringInterval price) as [i|];
      [destruct (bool_decide (i = "year")); [|destruct (truthyString i)]|];
      rewrite Hd; (split; [split; intros; discriminate | eauto]).
  - unfold useDisplayPrice. rewrite Ha, Ht. done.
Qed.

Lemma useDisplayPrice_free_iff_witness :
  ∃ rest,
    useDisplayPrice (TransformQuantity := unit) (λ quantity _, quantity) (λ _, "")
      (Some {| unit_amount := Some 1999%float;
               recurring := Some {| interval := "month" |};
               transform_quantity := None |})
      (Some 3%float)
    = String "$" rest.
Proof.
  exact (proj2 (useDisplayPrice_free_iff (TransformQuantity := unit)
                  (λ quantity _, quantity) (λ _, "")
                  (Some {| unit_amount := Some 1999%float;
                           recurring := Some {| interval := "month" |};
                           transform_quantity := None |})
                  (Some 3%float) (λ _, eq_refl)) eq_refl).
Defined.

End DisplayPriceBehaviour.

Module AnalysisTabBehaviour.
Import AnalysisTab AnalysisTabFacts.




End AnalysisTabBehaviour.
